(** * story-api: the article lifecycle of [api-article.go]

    A shallow embedding of the seven article handlers (create, edit, save,
    submit, discard, publish, unpublish), of the audit decorator and of the
    article-id codec, together with the properties of the lifecycle that
    the specification states about them and that the code shows. *)

From stdpp Require Import gmap strings list fin_maps.
From Stdlib Require Import ZArith Ascii String Lia Bool.

Local Open Scope string_scope.
Local Open Scope Z_scope.

(** ** Go strings and numbers used by the id codec *)

(** A Go [string] is a sequence of bytes; [id[lo:hi]] is [slice id lo hi]. *)
Definition slice (s : string) (lo hi : nat) : string :=
  String.substring lo (hi - lo) s.

Definition sliceFrom (s : string) (lo : nat) : string :=
  String.substring lo (String.length s - lo) s.

(** [strings.LastIndex(s, sep)] for a one-byte separator: the index of the
    last occurrence of [sep] in [s], or [-1]. *)
Fixpoint LastIndex_from (s : string) (sep : ascii) (i last : Z) : Z :=
  match s with
  | EmptyString => last
  | String c r => LastIndex_from r sep (i + 1) (if Ascii.eqb c sep then i else last)
  end.

Definition LastIndex (s : string) (sep : ascii) : Z :=
  LastIndex_from s sep 0 (-1).

Definition minInt64 : Z := - 2 ^ 63.
Definition maxInt64 : Z := 2 ^ 63 - 1.
Definition maxUint64 : Z := 2 ^ 64 - 1.

Definition wrapU64 (n : Z) : Z := n mod 2 ^ 64.

(** Two's complement reading of a 64-bit pattern, Go's [int64(x)]. *)
Definition wrap64 (n : Z) : Z := (n + 2 ^ 63) mod 2 ^ 64 - 2 ^ 63.

Definition digitChar (d : Z) : ascii := ascii_of_N (Z.to_N (48 + d)).

Definition digitVal (c : ascii) : option Z :=
  let n := Z.of_N (N_of_ascii c) in
  if (48 <=? n) && (n <=? 57) then Some (n - 48) else None.

(** [strconv.FormatUint(u, 10)]: digits are produced from the least
    significant one, into the front of what is already there.  Twenty
    rounds are enough for any 64-bit value. *)
Fixpoint formatDigits (fuel : nat) (u : Z) (acc : string) : string :=
  match fuel with
  | O => acc
  | S f =>
      let acc' := String (digitChar (u mod 10)) acc in
      if u / 10 =? 0 then acc' else formatDigits f (u / 10) acc'
  end.

(** [strconv.FormatInt(v, 10)], which is how [fmt.Sprintf("%v", v)] renders
    an [int64]. *)
Definition FormatInt (v : Z) : string :=
  if v <? 0 then String "-" (formatDigits 20 (- v) "")
  else formatDigits 20 v "".

Inductive NumError : Type :=
| ErrSyntax
| ErrRange.

(** The loop of [strconv.ParseUint(s, 10, 64)] over the bytes of [s], with
    its overflow checks on the 64-bit accumulator [n]. *)
Fixpoint parseUintLoop (s : string) (n : Z) : Z * option NumError :=
  match s with
  | EmptyString => (n, None)
  | String c r =>
      match digitVal c with
      | None => (0, Some ErrSyntax)
      | Some d =>
          if n >=? maxUint64 / 10 + 1 then (maxUint64, Some ErrRange)
          else
            let n10 := wrapU64 (n * 10) in
            let n1 := wrapU64 (n10 + d) in
            if (n1 <? n10) || (n1 >? maxUint64) then (maxUint64, Some ErrRange)
            else parseUintLoop r n1
      end
  end.

Definition ParseUint (s : string) : Z * option NumError :=
  match s with
  | EmptyString => (0, Some ErrSyntax)
  | _ => parseUintLoop s 0
  end.

(** [strconv.ParseInt(s, 10, 64)]: an optional sign, then [ParseUint] and
    the range check against [1 << 63]. *)
Definition ParseInt (s : string) : Z * option NumError :=
  match s with
  | EmptyString => (0, Some ErrSyntax)
  | String c0 r =>
      let neg := Ascii.eqb c0 "-" in
      let s' := if Ascii.eqb c0 "+" then r else if neg then r else s in
      match ParseUint s' with
      | (_, Some ErrSyntax) => (0, Some ErrSyntax)
      | (un, _) =>
          let cutoff := 2 ^ 63 in
          if negb neg && (un >=? cutoff) then (cutoff - 1, Some ErrRange)
          else if neg && (un >? cutoff) then (- cutoff, Some ErrRange)
          else (if neg then wrap64 (- wrap64 un) else wrap64 un, None)
      end
  end.

(** ** The id codec: [parseArticleId] *)

Definition parseArticleId (id : string) : string * Z * option NumError :=
  let idx := LastIndex id ":" in
  if idx <=? 0 then (id, 0, None)
  else
    let guid := slice id 0 (Z.to_nat idx) in
    match ParseInt (sliceFrom id (Z.to_nat idx + 1)) with
    | (ver, None) => (guid, ver, None)
    | (_, Some err) => (guid, 0, Some err)
    end.

(** The version id that [submitArticle] builds:
    [fmt.Sprintf("%v:%v", guid, ver)]. *)
Definition versionId (guid : string) (ver : Z) : string :=
  (guid ++ ":" ++ FormatInt ver)%string.

(** ** Data model *)

(** [JSONTime] wraps a [time.Time]; the instant is kept as nanoseconds
    since the Unix epoch (UTC). *)
Record JSONTime : Type := MkJSONTime { T : Z }.

(** The zero [time.Time] is January 1, year 1, 00:00:00 UTC. *)
Definition zeroTime : Z := - 62135596800 * 10 ^ 9.

Definition IsZero (t : Z) : bool := t =? zeroTime.

(** [Time.UnixNano]: an [int64]. *)
Definition UnixNano (t : Z) : Z := wrap64 t.

(** On the wire a [JSONTime] is the text [2006-01-02T15:04:05.000Z], which
    keeps milliseconds; the text is represented by the number of
    milliseconds since the epoch that it denotes. *)
Definition MarshalJSON (t : JSONTime) : Z := T t / 10 ^ 6.

Definition UnmarshalJSON (ms : Z) : JSONTime := MkJSONTime (ms * 10 ^ 6).

Record Article : Type := MkArticle {
  Id : string;
  Guid : string;
  Version : Z;
  Headline : string;
  Summary : string;
  Content : string;
  Tag : list string;
  Note : string;
  CreatedAt : option JSONTime;
  CreatedBy : string;
  RevisedAt : option JSONTime;
  RevisedBy : string;
  FromVersion : Z;
  LockedBy : string
}.

(** The zero value [Article{}]. *)
Definition emptyArticle : Article :=
  MkArticle "" "" 0 "" "" "" [] "" None "" None "" 0 "".

(** Field assignments [a.F = v]. *)
Definition setId (v : string) (a : Article) : Article :=
  MkArticle v (Guid a) (Version a) (Headline a) (Summary a) (Content a) (Tag a)
    (Note a) (CreatedAt a) (CreatedBy a) (RevisedAt a) (RevisedBy a)
    (FromVersion a) (LockedBy a).

Definition setGuid (v : string) (a : Article) : Article :=
  MkArticle (Id a) v (Version a) (Headline a) (Summary a) (Content a) (Tag a)
    (Note a) (CreatedAt a) (CreatedBy a) (RevisedAt a) (RevisedBy a)
    (FromVersion a) (LockedBy a).

Definition setVersion (v : Z) (a : Article) : Article :=
  MkArticle (Id a) (Guid a) v (Headline a) (Summary a) (Content a) (Tag a)
    (Note a) (CreatedAt a) (CreatedBy a) (RevisedAt a) (RevisedBy a)
    (FromVersion a) (LockedBy a).

Definition setHeadline (v : string) (a : Article) : Article :=
  MkArticle (Id a) (Guid a) (Version a) v (Summary a) (Content a) (Tag a)
    (Note a) (CreatedAt a) (CreatedBy a) (RevisedAt a) (RevisedBy a)
    (FromVersion a) (LockedBy a).

Definition setSummary (v : string) (a : Article) : Article :=
  MkArticle (Id a) (Guid a) (Version a) (Headline a) v (Content a) (Tag a)
    (Note a) (CreatedAt a) (CreatedBy a) (RevisedAt a) (RevisedBy a)
    (FromVersion a) (LockedBy a).

Definition setContent (v : string) (a : Article) : Article :=
  MkArticle (Id a) (Guid a) (Version a) (Headline a) (Summary a) v (Tag a)
    (Note a) (CreatedAt a) (CreatedBy a) (RevisedAt a) (RevisedBy a)
    (FromVersion a) (LockedBy a).

Definition setTag (v : list string) (a : Article) : Article :=
  MkArticle (Id a) (Guid a) (Version a) (Headline a) (Summary a) (Content a) v
    (Note a) (CreatedAt a) (CreatedBy a) (RevisedAt a) (RevisedBy a)
    (FromVersion a) (LockedBy a).

Definition setNote (v : string) (a : Article) : Article :=
  MkArticle (Id a) (Guid a) (Version a) (Headline a) (Summary a) (Content a) (Tag a)
    v (CreatedAt a) (CreatedBy a) (RevisedAt a) (RevisedBy a)
    (FromVersion a) (LockedBy a).

Definition setCreatedAt (v : option JSONTime) (a : Article) : Article :=
  MkArticle (Id a) (Guid a) (Version a) (Headline a) (Summary a) (Content a) (Tag a)
    (Note a) v (CreatedBy a) (RevisedAt a) (RevisedBy a)
    (FromVersion a) (LockedBy a).

Definition setCreatedBy (v : string) (a : Article) : Article :=
  MkArticle (Id a) (Guid a) (Version a) (Headline a) (Summary a) (Content a) (Tag a)
    (Note a) (CreatedAt a) v (RevisedAt a) (RevisedBy a)
    (FromVersion a) (LockedBy a).

Definition setRevisedAt (v : option JSONTime) (a : Article) : Article :=
  MkArticle (Id a) (Guid a) (Version a) (Headline a) (Summary a) (Content a) (Tag a)
    (Note a) (CreatedAt a) (CreatedBy a) v (RevisedBy a)
    (FromVersion a) (LockedBy a).

Definition setRevisedBy (v : string) (a : Article) : Article :=
  MkArticle (Id a) (Guid a) (Version a) (Headline a) (Summary a) (Content a) (Tag a)
    (Note a) (CreatedAt a) (CreatedBy a) (RevisedAt a) v
    (FromVersion a) (LockedBy a).

Definition setFromVersion (v : Z) (a : Article) : Article :=
  MkArticle (Id a) (Guid a) (Version a) (Headline a) (Summary a) (Content a) (Tag a)
    (Note a) (CreatedAt a) (CreatedBy a) (RevisedAt a) (RevisedBy a)
    v (LockedBy a).

Definition setLockedBy (v : string) (a : Article) : Article :=
  MkArticle (Id a) (Guid a) (Version a) (Headline a) (Summary a) (Content a) (Tag a)
    (Note a) (CreatedAt a) (CreatedBy a) (RevisedAt a) (RevisedBy a)
    (FromVersion a) v.

(** *** JSON documents

    A JSON object with the keys of the [json:"..."] tags of [Article]; a key
    is present ([Some]) or absent ([None]).  Times are in their wire form
    (milliseconds).  A [null] and an empty array under ["tag"] both decode
    to the empty slice and are both [Some []]. *)
Record Doc : Type := MkDoc {
  f_id : option string;
  f_guid : option string;
  f_version : option Z;
  f_headline : option string;
  f_summary : option string;
  f_content : option string;
  f_tag : option (list string);
  f_note : option string;
  f_created_at : option Z;
  f_created_by : option string;
  f_revised_at : option Z;
  f_revised_by : option string;
  f_from_version : option Z;
  f_locked_by : option string
}.

#[global] Instance Doc_eq_dec : EqDecision Doc.
Proof. solve_decision. Defined.

Definition emptyDoc : Doc :=
  MkDoc None None None None None None None None None None None None None None.

(** [omitempty]: the zero value of the field's type is left out. *)
Definition omitString (s : string) : option string :=
  if String.eqb s "" then None else Some s.

Definition omitInt (n : Z) : option Z :=
  if n =? 0 then None else Some n.

Definition omitSlice (l : list string) : option (list string) :=
  match l with
  | [] => None
  | _ => Some l
  end.

(** [json.Marshal] of an [Article]: every field carries [omitempty]. *)
Definition marshal (a : Article) : Doc :=
  MkDoc (omitString (Id a)) (omitString (Guid a)) (omitInt (Version a))
    (omitString (Headline a)) (omitString (Summary a)) (omitString (Content a))
    (omitSlice (Tag a)) (omitString (Note a))
    (MarshalJSON <$> CreatedAt a) (omitString (CreatedBy a))
    (MarshalJSON <$> RevisedAt a) (omitString (RevisedBy a))
    (omitInt (FromVersion a)) (omitString (LockedBy a)).

(** [json.Unmarshal] into a fresh [Article]: an absent key leaves the zero
    value. *)
Definition unmarshal (d : Doc) : Article :=
  MkArticle (default "" (f_id d)) (default "" (f_guid d)) (default 0 (f_version d))
    (default "" (f_headline d)) (default "" (f_summary d)) (default "" (f_content d))
    (default [] (f_tag d)) (default "" (f_note d))
    (UnmarshalJSON <$> f_created_at d) (default "" (f_created_by d))
    (UnmarshalJSON <$> f_revised_at d) (default "" (f_revised_by d))
    (default 0 (f_from_version d)) (default "" (f_locked_by d)).

Definition nilIfZero (t : option JSONTime) : option JSONTime :=
  match t with
  | Some jt => if IsZero (T jt) then None else Some jt
  | None => None
  end.

Definition NilZeroTimeFields (a : Article) : Article :=
  setRevisedAt (nilIfZero (RevisedAt a)) (setCreatedAt (nilIfZero (CreatedAt a)) a).

Definition unmarshalArticle (d : Doc) : Article :=
  NilZeroTimeFields (unmarshal d).

(** ** Responses *)

Definition StatusOK : Z := 200.
Definition StatusForbidden : Z := 403.
Definition StatusNotFound : Z := 404.
Definition StatusConflict : Z := 409.
Definition StatusInternalServerError : Z := 500.

Inductive ContentType : Type :=
| ContentTypeValueText
| ContentTypeValueJSON.

(** The body of a response: a text, or the JSON of a marshalled article. *)
Inductive RespBody : Type :=
| TextBody (s : string)
| JsonBody (d : Doc).

Record HttpResponseData : Type := MkResp {
  Status : Z;
  RespContentType : ContentType;
  Body : RespBody;
  Data : option Article
}.

(** Modelled from the spec: the response constructors [CreateRespData],
    [CreateNotFoundRespData], [CreateForbiddenRespData] and
    [CreateInternalServerErrorRespData] are declared outside
    [api-article.go]; each builds a response with the status of its name
    (NotFound 404, Forbidden 403, Internal 500) around a readable message. *)
Definition CreateRespData (status : Z) (ct : ContentType) (body : RespBody) : HttpResponseData :=
  MkResp status ct body None.

Definition CreateNotFoundRespData (body : string) : HttpResponseData :=
  CreateRespData StatusNotFound ContentTypeValueText (TextBody body).

Definition CreateForbiddenRespData (body : string) : HttpResponseData :=
  CreateRespData StatusForbidden ContentTypeValueText (TextBody body).

Definition CreateInternalServerErrorRespData (body : string) : HttpResponseData :=
  CreateRespData StatusInternalServerError ContentTypeValueText (TextBody body).

Definition setData (a : option Article) (d : HttpResponseData) : HttpResponseData :=
  MkResp (Status d) (RespContentType d) (Body d) a.

(** [marshalArticle]: [json.Marshal] cannot fail on an [Article], so only
    the second branch of the source remains. *)
Definition marshalArticle (a : Article) (status : Z) : HttpResponseData :=
  CreateRespData status ContentTypeValueJSON (JsonBody (marshal a)).

(** ** Requests *)

(** What [ioutil.ReadAll(r.Body)] followed by [json.Unmarshal] can meet. *)
Inductive ReqBody : Type :=
| BodyUnreadable (err : string)
| BodyMalformed (err : string)
| BodyJson (d : Doc).

(** What a handler reads from its request and from the clock: the ["id"]
    argument ([StringFromReq(r, CtxKeyId)]), the authenticated user
    ([AuthFromReq(r).Username]), the body, and the instant that [time.Now()]
    returns during the call. *)
Record Request : Type := MkRequest {
  CtxKeyId : string;
  Username : string;
  ReqBodyOf : ReqBody;
  Now : Z
}.

(** The names that [app.Conf] gives to the index and its three types; they
    only show in messages. *)
Inductive IndexType : Type :=
| DraftType
| VersionType
| PublishType.

Record AppRuntime : Type := MkApp {
  ArticleIndexName : string;
  TypeName : IndexType -> string
}.

(** ** Calls to the document store *)

Record EsError : Type := MkEsError {
  ErrStatus : Z;
  ErrText : string
}.

Definition IsNotFound (e : EsError) : bool := ErrStatus e =? 404.

(** A Go pair [(resp, err)]. *)
Inductive Result (R : Type) : Type :=
| Ok (resp : R)
| Err (err : EsError).
Arguments Ok {R} resp.
Arguments Err {R} err.

Record GetResult : Type := MkGetResult {
  Found : bool;
  GetId : string;
  Source : Doc
}.

Record IndexResponse : Type := MkIndexResponse {
  IndexId : string;
  Created : bool
}.

Record UpdateResponse : Type := MkUpdateResponse {
  UpdResult : string
}.

(** The parameters handed to the save script. *)
Record Params : Type := MkParams {
  p_checkuser : bool;
  p_headline : string;
  p_summary : string;
  p_content : string;
  p_tag : list string;
  p_note : string;
  p_username : string;
  p_revised_at : JSONTime
}.

Inductive CtxOp : Type :=
| OpIndex
| OpNone.

(** [ESScriptSaveArticle]: the script context after the run, that is
    [ctx.op] and [ctx._source]. *)
Definition ESScriptSaveArticle (params : Params) (source : Doc) : CtxOp * Doc :=
  if p_checkuser params && negb (bool_decide (f_locked_by source = Some (p_username params)))
  then (OpNone, source)
  else
    (OpIndex,
     MkDoc (f_id source) (f_guid source) (f_version source)
       (Some (p_headline params)) (Some (p_summary params)) (Some (p_content params))
       (Some (p_tag params)) (Some (p_note params))
       (f_created_at source) (f_created_by source)
       (f_revised_at source) (f_revised_by source)
       (f_from_version source) (f_locked_by source)).

Inductive Mutex : Type :=
| draftLock
| publishLock.

(** One constructor per service of the client that the handlers run with
    [Do], with the settings they give it, and the two operations of a
    keyed mutex. *)
Inductive Call : Type -> Type :=
| GetDo (typ : IndexType) (id : string) (includes : list string) :
    Call (Result GetResult)
| IndexDo (typ : IndexType) (opCreate : bool) (id : string) (body : Article) :
    Call (Result IndexResponse)
| UpdateScriptDo (typ : IndexType) (id : string)
    (script : Params -> Doc -> CtxOp * Doc) (params : Params) (detectNoop : bool) :
    Call (Result UpdateResponse)
| UpdateDocDo (typ : IndexType) (id : string) (doc : Article) (docAsUpsert : bool) :
    Call (Result UpdateResponse)
| DeleteDo (typ : IndexType) (id : string) :
    Call (Result unit)
| Lock (m : Mutex) (key : string) : Call unit
| Unlock (m : Mutex) (key : string) : Call unit.

(** A handler is a program over these calls; it returns, or panics as Go
    does on a nil pointer. *)
Inductive Prog (A : Type) : Type :=
| Ret (a : A)
| Panic (msg : string)
| Do {R : Type} (c : Call R) (k : R -> Prog A).
Arguments Ret {A} a.
Arguments Panic {A} msg.
Arguments Do {A R} c k.

Fixpoint bind {A B : Type} (m : Prog A) (f : A -> Prog B) : Prog B :=
  match m with
  | Ret a => f a
  | Panic msg => Panic msg
  | Do c k => Do c (fun r => bind (k r) f)
  end.

Definition call {R : Type} (c : Call R) : Prog R := Do c Ret.

#[global] Instance Prog_ret : MRet Prog := @Ret.
#[global] Instance Prog_bind : MBind Prog := fun A B f m => bind m f.

(** [defer c]: the call runs when the body returns and when it panics. *)
Fixpoint defer {A : Type} (c : Call unit) (body : Prog A) : Prog A :=
  match body with
  | Ret a => Do c (fun _ => Ret a)
  | Panic msg => Do c (fun _ => Panic msg)
  | Do c' k => Do c' (fun r => defer c (k r))
  end.

(** [lock := m.Get(key); lock.Lock(); defer lock.Unlock(); body]. *)
Definition withLock {A : Type} (m : Mutex) (key : string) (body : Prog A) : Prog A :=
  Do (Lock m key) (fun _ => defer (Unlock m key) body).

(** Dereferencing a pointer that may be [nil]. *)
Definition deref {A : Type} (p : option A) : Prog A :=
  match p with
  | Some a => Ret a
  | None => Panic "invalid memory address or nil pointer dereference"
  end.

(** ** The handlers of [api-article.go] *)

Definition fullSource : list string :=
  ["guid"; "headline"; "summary"; "content"; "tag"; "created_at"; "created_by";
   "revised_at"; "revised_by"; "version"; "from_version"; "note"; "locked_by"].

Definition notFoundIn (app : AppRuntime) (id : string) (typ : IndexType) : string :=
  ("article " ++ id ++ " not found in index " ++ ArticleIndexName app ++ " type "
     ++ TypeName app typ ++ "!")%string.

(** [getArticle] returns the pair (article, response) of which one is
    [nil]. *)
Definition getArticle (app : AppRuntime) (typ : IndexType) (id : string)
    (source : list string) : Prog (option Article * option HttpResponseData) :=
  r ← call (GetDo typ id source);
  match r with
  | Err err =>
      if IsNotFound err then
        mret (None, Some (CreateNotFoundRespData (notFoundIn app id typ)))
      else
        mret (None, Some (CreateInternalServerErrorRespData
                            ("failed to query elasticsearch, error: " ++ ErrText err)%string))
  | Ok resp =>
      if negb (Found resp) then
        mret (None, Some (CreateNotFoundRespData (notFoundIn app id typ)))
      else
        let article := unmarshal (Source resp) in
        let article := setId (GetId resp) article in
        mret (Some article, None)
  end.

Definition getFullArticle (app : AppRuntime) (typ : IndexType) (id : string) :
    Prog (option Article * option HttpResponseData) :=
  getArticle app typ id fullSource.

(** In [createArticle], as in [marshalArticle], the branch for a failing
    [json.Marshal] is left out: it cannot fail on an [Article]. *)
Definition createArticle (app : AppRuntime) (r : Request) : Prog HttpResponseData :=
  let username := Username r in
  let article := setFromVersion 0 (setLockedBy username emptyArticle) in
  res ← call (IndexDo DraftType false "" article);
  match res with
  | Err err =>
      mret (CreateInternalServerErrorRespData ("error creating new doc: " ++ ErrText err)%string)
  | Ok resp =>
      let article := setId (IndexId resp) article in
      let article := setGuid (IndexId resp) article in
      let article := setCreatedBy username article in
      let article := setLockedBy username article in
      let d := CreateRespData StatusOK ContentTypeValueJSON (JsonBody (marshal article)) in
      mret (setData (Some article) d)
  end.

Definition saveParams (checkuser : bool) (article : Article) (username : string)
    (revised_at : JSONTime) : Params :=
  MkParams checkuser (Headline article) (Summary article) (Content article)
    (Tag article) (Note article) username revised_at.

(** The message for an unknown result is written without the quotes that
    the source puts around the word result. *)
Definition saveArticle (app : AppRuntime) (r : Request) : Prog HttpResponseData :=
  match ReqBodyOf r with
  | BodyUnreadable err =>
      mret (CreateInternalServerErrorRespData
              ("failed to read request body, error: " ++ err)%string)
  | BodyMalformed err =>
      mret (CreateInternalServerErrorRespData
              ("failed to unmarshal article, error: " ++ err)%string)
  | BodyJson bytes =>
      let article := unmarshalArticle bytes in
      let id := CtxKeyId r in
      let username := Username r in
      let params := saveParams true article username (MkJSONTime (Now r)) in
      withLock draftLock id (
        res ← call (UpdateScriptDo DraftType id ESScriptSaveArticle params true);
        match res with
        | Err err =>
            if IsNotFound err then
              mret (CreateNotFoundRespData ("article " ++ id ++ " not found!")%string)
            else
              mret (CreateInternalServerErrorRespData
                      ("failed to update article, error: " ++ ErrText err)%string)
        | Ok resp =>
            if String.eqb (UpdResult resp) "noop" then
              mret (CreateForbiddenRespData
                      "Update article locked by another user is not allowed!")
            else if String.eqb (UpdResult resp) "updated" then
              mret (CreateRespData StatusOK ContentTypeValueText (TextBody ""))
            else
              mret (CreateInternalServerErrorRespData
                      ("unknown result in update response: " ++ UpdResult resp)%string)
        end)
  end.

(** The article that [submitArticle] indexes as the new version (its lines
    "set article props for the new version"). *)
Definition versionProps (article : Article) (guid username : string) (ts : Z) : Article :=
  let jt := MkJSONTime ts in
  let ver := UnixNano ts in
  let verGuid := versionId guid ver in
  let article := setId verGuid article in
  let article := setVersion ver article in
  let article :=
    if FromVersion article =? 0 then
      setRevisedBy "" (setRevisedAt None (setCreatedBy username (setCreatedAt (Some jt) article)))
    else
      setRevisedBy username (setRevisedAt (Some jt) article) in
  setLockedBy "" article.

Definition submitArticle (app : AppRuntime) (r : Request) : Prog HttpResponseData :=
  match ReqBodyOf r with
  | BodyUnreadable err =>
      mret (CreateInternalServerErrorRespData
              ("failed to read request body, error: " ++ err)%string)
  | BodyMalformed err =>
      mret (CreateInternalServerErrorRespData
              ("failed to unmarshal article, error: " ++ err)%string)
  | BodyJson bytes =>
      let article := unmarshalArticle bytes in
      let guid := CtxKeyId r in
      let username := Username r in
      let ts := Now r in
      let params := saveParams false article username (MkJSONTime ts) in
      withLock draftLock guid (
        upd ← call (UpdateScriptDo DraftType guid ESScriptSaveArticle params false);
        match upd with
        | Err err =>
            mret (CreateInternalServerErrorRespData
                    ("failed to save article draft " ++ guid ++ ", error: " ++ ErrText err)%string)
        | Ok _ =>
            let article := versionProps article guid username ts in
            idx ← call (IndexDo VersionType true (Id article) article);
            match idx with
            | Err err =>
                mret (CreateInternalServerErrorRespData
                        ("failed to create new article version, error: " ++ ErrText err)%string)
            | Ok idxResp =>
                if negb (Created idxResp) then
                  mret (CreateInternalServerErrorRespData
                          "no reason but article new version is not created!")
                else
                  del ← call (DeleteDo DraftType (Guid article));
                  match del with
                  | Err err =>
                      mret (CreateInternalServerErrorRespData
                              ("failed to delete article draft, error: " ++ ErrText err)%string)
                  | Ok _ =>
                      let article := setHeadline "" article in
                      let article := setSummary "" article in
                      let article := setContent "" article in
                      let article := setTag [] article in
                      let article := setNote "" article in
                      mret (marshalArticle article StatusOK)
                  end
            end
        end)
  end.

Definition discardArticle (app : AppRuntime) (r : Request) : Prog HttpResponseData :=
  let id := CtxKeyId r in
  withLock draftLock id (
    res ← call (DeleteDo DraftType id);
    match res with
    | Err err =>
        if IsNotFound err then
          mret (CreateNotFoundRespData ("article " ++ id ++ " not found!")%string)
        else
          mret (CreateInternalServerErrorRespData
                  ("failed to discard article, error: " ++ ErrText err)%string)
    | Ok _ => mret (CreateRespData StatusOK ContentTypeValueText (TextBody ""))
    end).

(** In [editArticle] the variable [article] is a pointer that the second
    [getArticle] assigns again, to [nil] when it hands back a response. *)
Definition editArticle (app : AppRuntime) (r : Request) : Prog HttpResponseData :=
  let id := CtxKeyId r in
  '(article, d) ← getFullArticle app VersionType id;
  match d with
  | Some d => mret d
  | None =>
      a ← deref article;
      let user := Username r in
      let a := setFromVersion (Version a) a in
      let a := setVersion 0 a in
      let a := setRevisedAt None a in
      let a := setRevisedBy user a in
      let a := setLockedBy user a in
      withLock draftLock (Guid a) (
        res ← call (IndexDo DraftType true (Guid a) a);
        match res with
        | Err err =>
            mret (CreateInternalServerErrorRespData
                    ("error querying elasticsearch, error: " ++ ErrText err)%string)
        | Ok resp =>
            if negb (Created resp) then
              '(article, d) ← getArticle app DraftType (Guid a)
                                ["guid"; "version"; "from_version"; "locked_by"];
              match d with
              | Some d =>
                  if Status d =? StatusNotFound then
                    a' ← deref article;
                    mret (marshalArticle (setGuid (Guid a') emptyArticle) StatusConflict)
                  else mret d
              | None =>
                  a' ← deref article;
                  mret (marshalArticle a' StatusConflict)
              end
            else mret (marshalArticle a StatusOK)
        end)
  end.

Definition publishArticle (app : AppRuntime) (r : Request) : Prog HttpResponseData :=
  let id := CtxKeyId r in
  '(article, d) ← getFullArticle app VersionType id;
  match d with
  | Some d => mret d
  | None =>
      a ← deref article;
      let guid := Guid a in
      let a := setId guid a in
      let a := setLockedBy "" a in
      withLock publishLock guid (
        res ← call (UpdateDocDo PublishType guid a true);
        match res with
        | Err err =>
            mret (CreateInternalServerErrorRespData
                    ("failed to publish article, error: " ++ ErrText err)%string)
        | Ok _ => mret (CreateRespData StatusOK ContentTypeValueText (TextBody ""))
        end)
  end.

Definition unpublishArticle (app : AppRuntime) (r : Request) : Prog HttpResponseData :=
  let id := CtxKeyId r in
  withLock publishLock id (
    res ← call (DeleteDo PublishType id);
    match res with
    | Err err =>
        if IsNotFound err then
          mret (CreateNotFoundRespData ("article " ++ id ++ " not found!")%string)
        else
          mret (CreateInternalServerErrorRespData
                  ("failed to unpublish article, error: " ++ ErrText err)%string)
    | Ok _ => mret (CreateRespData StatusOK ContentTypeValueText (TextBody ""))
    end).

(** ** Running a handler *)

Inductive Outcome (A : Type) : Type :=
| Returned (a : A)
| Panicked (msg : string).
Arguments Returned {A} a.
Arguments Panicked {A} msg.

(** What a call is about, for the log of a run. *)
Inductive Step : Type :=
| SGet (typ : IndexType) (id : string)
| SIndex (typ : IndexType) (id : string)
| SUpdate (typ : IndexType) (id : string)
| SDelete (typ : IndexType) (id : string)
| SLock (m : Mutex) (key : string)
| SUnlock (m : Mutex) (key : string).

Definition stepOf {R : Type} (c : Call R) : Step :=
  match c with
  | GetDo typ id _ => SGet typ id
  | IndexDo typ _ id _ => SIndex typ id
  | UpdateScriptDo typ id _ _ _ => SUpdate typ id
  | UpdateDocDo typ id _ _ => SUpdate typ id
  | DeleteDo typ id => SDelete typ id
  | Lock m key => SLock m key
  | Unlock m key => SUnlock m key
  end.

Record Ran (A S : Type) : Type := MkRan {
  outcome : Outcome A;
  final : S;
  steps : list Step
}.
Arguments MkRan {A S} _ _ _.
Arguments outcome {A S} _.
Arguments final {A S} _.
Arguments steps {A S} _.

(** [exec h p s] runs [p] from the state [s], every call being answered by
    [h]; it gives the outcome, the last state and the calls made, in
    order. *)
Definition logStep {A S : Type} (step : Step) (t : Ran A S) : Ran A S :=
  MkRan (outcome t) (final t) (step :: steps t).

Definition endStep {A S : Type} (step : Step) (t : Ran A S) : Ran A S :=
  MkRan (outcome t) (final t) (steps t ++ [step]).

Fixpoint exec {S A : Type} (h : forall R, Call R -> S -> R * S) (p : Prog A) (s : S) :
    Ran A S :=
  match p with
  | Ret a => MkRan (Returned a) s []
  | Panic msg => MkRan (Panicked msg) s []
  | Do c k =>
      let rs := h _ c s in
      logStep (stepOf c) (exec h (k (fst rs)) (snd rs))
  end.

(** ** The document store

    The store is the external collaborator behind the client: three
    collections of JSON documents keyed by id.  Its operations follow the
    contract the handlers rely on and Elasticsearch's documented behaviour:
    - a get of an absent id is a 404 error;
    - an index call with an empty id lets the store choose the id; with
      [OpType(create)] and an id that is taken, nothing is written and the
      response says [Created = false], which is how the handlers read
      "same doc already there";
    - a scripted update runs the script on the stored source; [ctx.op =
      "none"] gives the result ["noop"] and writes nothing, anything else
      writes [ctx._source] and gives ["updated"] ([detect_noop] only
      concerns updates with a partial document);
    - an update with a partial document merges the keys of that document
      into the stored one, key by key, and inserts the document when the
      id is absent and [doc_as_upsert] is set; it is a ["noop"] when the
      merge changes nothing;
    - a delete of an absent id is a 404 error;
    - get, update and delete refuse an empty id before any request is
      made.
    A get sees every write made before it: the delay after which a
    non-realtime get sees a new document is not part of the model (what
    other instances do between two calls is, see [runAmong]). *)
Record Store : Type := MkStore {
  drafts : gmap string Doc;
  versions : gmap string Doc;
  publishes : gmap string Doc;
  autoSeq : Z
}.

Definition docs (st : Store) (typ : IndexType) : gmap string Doc :=
  match typ with
  | DraftType => drafts st
  | VersionType => versions st
  | PublishType => publishes st
  end.

Definition setDocs (typ : IndexType) (m : gmap string Doc) (st : Store) : Store :=
  match typ with
  | DraftType => MkStore m (versions st) (publishes st) (autoSeq st)
  | VersionType => MkStore (drafts st) m (publishes st) (autoSeq st)
  | PublishType => MkStore (drafts st) (versions st) m (autoSeq st)
  end.

Definition errMissingId : EsError := MkEsError 0 "missing required fields: [Id]".
Definition errNotFound : EsError := MkEsError 404 "elastic: Error 404 (Not Found)".
Definition errConflict : EsError := MkEsError 409 "elastic: Error 409 (Conflict)".

Definition included {A : Type} (includes : list string) (key : string) (v : option A) :
    option A :=
  match includes with
  | [] => v
  | _ => if existsb (String.eqb key) includes then v else None
  end.

(** Source filtering of a get: only the included keys come back. *)
Definition filterSource (includes : list string) (d : Doc) : Doc :=
  MkDoc (included includes "id" (f_id d)) (included includes "guid" (f_guid d))
    (included includes "version" (f_version d))
    (included includes "headline" (f_headline d))
    (included includes "summary" (f_summary d))
    (included includes "content" (f_content d))
    (included includes "tag" (f_tag d)) (included includes "note" (f_note d))
    (included includes "created_at" (f_created_at d))
    (included includes "created_by" (f_created_by d))
    (included includes "revised_at" (f_revised_at d))
    (included includes "revised_by" (f_revised_by d))
    (included includes "from_version" (f_from_version d))
    (included includes "locked_by" (f_locked_by d)).

Definition orElse {A : Type} (new old : option A) : option A :=
  match new with
  | Some v => Some v
  | None => old
  end.

(** Merge of a partial document into a stored one. *)
Definition mergeDoc (old new : Doc) : Doc :=
  MkDoc (orElse (f_id new) (f_id old)) (orElse (f_guid new) (f_guid old))
    (orElse (f_version new) (f_version old))
    (orElse (f_headline new) (f_headline old))
    (orElse (f_summary new) (f_summary old))
    (orElse (f_content new) (f_content old))
    (orElse (f_tag new) (f_tag old)) (orElse (f_note new) (f_note old))
    (orElse (f_created_at new) (f_created_at old))
    (orElse (f_created_by new) (f_created_by old))
    (orElse (f_revised_at new) (f_revised_at old))
    (orElse (f_revised_by new) (f_revised_by old))
    (orElse (f_from_version new) (f_from_version old))
    (orElse (f_locked_by new) (f_locked_by old)).

Definition autoId (n : Z) : string := ("auto-" ++ FormatInt n)%string.

Definition esGet (st : Store) (typ : IndexType) (id : string) (includes : list string) :
    Result GetResult :=
  if String.eqb id "" then Err errMissingId
  else
    match docs st typ !! id with
    | Some d => Ok (MkGetResult true id (filterSource includes d))
    | None => Err errNotFound
    end.

Definition esIndex (st : Store) (typ : IndexType) (opCreate : bool) (id : string)
    (body : Article) : Result IndexResponse * Store :=
  if String.eqb id "" then
    let id' := autoId (autoSeq st) in
    let st' := MkStore (drafts st) (versions st) (publishes st) (autoSeq st + 1) in
    match docs st typ !! id' with
    | Some _ => (Err errConflict, st')
    | None => (Ok (MkIndexResponse id' true), setDocs typ (<[id' := marshal body]> (docs st typ)) st')
    end
  else
    match docs st typ !! id with
    | Some _ =>
        if opCreate then (Ok (MkIndexResponse id false), st)
        else (Ok (MkIndexResponse id false), setDocs typ (<[id := marshal body]> (docs st typ)) st)
    | None =>
        (Ok (MkIndexResponse id true), setDocs typ (<[id := marshal body]> (docs st typ)) st)
    end.

Definition esUpdateScript (st : Store) (typ : IndexType) (id : string)
    (script : Params -> Doc -> CtxOp * Doc) (params : Params) (detectNoop : bool) :
    Result UpdateResponse * Store :=
  if String.eqb id "" then (Err errMissingId, st)
  else
    match docs st typ !! id with
    | None => (Err errNotFound, st)
    | Some d =>
        match script params d with
        | (OpNone, _) => (Ok (MkUpdateResponse "noop"), st)
        | (OpIndex, d') =>
            (Ok (MkUpdateResponse "updated"), setDocs typ (<[id := d']> (docs st typ)) st)
        end
    end.

Definition esUpdateDoc (st : Store) (typ : IndexType) (id : string) (doc : Article)
    (docAsUpsert : bool) : Result UpdateResponse * Store :=
  if String.eqb id "" then (Err errMissingId, st)
  else
    match docs st typ !! id with
    | None =>
        if docAsUpsert then
          (Ok (MkUpdateResponse "created"),
           setDocs typ (<[id := marshal doc]> (docs st typ)) st)
        else (Err errNotFound, st)
    | Some d =>
        let d' := mergeDoc d (marshal doc) in
        if bool_decide (d' = d) then (Ok (MkUpdateResponse "noop"), st)
        else (Ok (MkUpdateResponse "updated"), setDocs typ (<[id := d']> (docs st typ)) st)
    end.

Definition esDelete (st : Store) (typ : IndexType) (id : string) : Result unit * Store :=
  if String.eqb id "" then (Err errMissingId, st)
  else
    match docs st typ !! id with
    | None => (Err errNotFound, st)
    | Some _ => (Ok tt, setDocs typ (delete id (docs st typ)) st)
    end.

(** The answer of the store to a call.  The keyed mutexes do not touch the
    store; a run is one handler on its own. *)
Definition esDo (R : Type) (c : Call R) (st : Store) : R * Store :=
  match c in Call R0 return R0 * Store with
  | GetDo typ id includes => (esGet st typ id includes, st)
  | IndexDo typ opCreate id body => esIndex st typ opCreate id body
  | UpdateScriptDo typ id script params detectNoop =>
      esUpdateScript st typ id script params detectNoop
  | UpdateDocDo typ id doc docAsUpsert => esUpdateDoc st typ id doc docAsUpsert
  | DeleteDo typ id => esDelete st typ id
  | Lock _ _ => (tt, st)
  | Unlock _ _ => (tt, st)
  end.

Definition run {A : Type} (p : Prog A) (st : Store) : Ran A Store :=
  exec esDo p st.

(** Other instances of the service share the store: [others] lists what
    they do to it just before each call of this run reaches it. *)
Definition esDoAmong (R : Type) (c : Call R) (w : Store * list (Store -> Store)) :
    R * (Store * list (Store -> Store)) :=
  match snd w with
  | [] => let rs := esDo R c (fst w) in (fst rs, (snd rs, []))
  | other :: rest => let rs := esDo R c (other (fst w)) in (fst rs, (snd rs, rest))
  end.

Definition runAmong {A : Type} (others : list (Store -> Store)) (p : Prog A) (st : Store) :
    Ran A (Store * list (Store -> Store)) :=
  exec esDoAmong p (st, others).

(** A run against arbitrary answers, for what a handler does with an
    answer whatever the store behind it. *)
Definition runWith {A : Type} (answer : forall R, Call R -> R) (p : Prog A) : Ran A unit :=
  exec (fun R c u => (answer R c, u)) p tt.

(** ** Predicates used in the statements *)

(** [hasByte c s]: the byte [c] occurs in [s]. *)
Fixpoint hasByte (c : ascii) (s : string) : bool :=
  match s with
  | EmptyString => false
  | String a r => Ascii.eqb a c || hasByte c r
  end.

Fixpoint allDigits (s : string) : bool :=
  match s with
  | EmptyString => true
  | String a r =>
      match digitVal a with
      | Some _ => allDigits r
      | None => false
      end
  end.

(** ** Example data

    A small installation used to run the handlers on concrete requests. *)

Definition exApp : AppRuntime :=
  MkApp "story"
    (fun typ =>
       match typ with
       | DraftType => "draft"
       | VersionType => "version"
       | PublishType => "publish"
       end).

(** A draft that alice holds. *)
Definition exDraft : Doc :=
  MkDoc None (Some "A1") None (Some "h") (Some "s") (Some "x") (Some []) (Some "")
    None None None None None (Some "alice").

Definition exStore : Store := MkStore {[ "A1" := exDraft ]} ∅ ∅ 0.

(** A body that carries the fields the draft already has. *)
Definition exBodySame : Doc :=
  MkDoc None (Some "A1") None (Some "h") (Some "s") (Some "x") None None
    None None None None None None.

Definition exBodyNew : Doc :=
  MkDoc None (Some "A1") None (Some "h2") (Some "s2") (Some "y") (Some ["t"]) (Some "n")
    None None None None None None.

Definition exSaveBob : Request := MkRequest "A1" "bob" (BodyJson exBodyNew) 2000.
Definition exSaveAliceSame : Request := MkRequest "A1" "alice" (BodyJson exBodySame) 2000.

(** The payload that a successful submit returns: the new version without
    its content fields (the five assignments before [marshalArticle]). *)
Definition stripped (article : Article) : Article :=
  setNote "" (setTag [] (setContent "" (setSummary "" (setHeadline "" article)))).

(** *** A history built with the handlers themselves

    alice creates an article and submits it; bob edits that first version
    and submits a second one; the second version is published. *)

Definition after (p : Prog HttpResponseData) (st : Store) : Store := final (run p st).

Definition emptyStore : Store := MkStore ∅ ∅ ∅ 0.

Definition ts1 : Z := 1500000000123456789.
Definition ts2 : Z := 1500000999123456789.

Definition exCreate : Request := MkRequest "" "alice" (BodyJson emptyDoc) 1000.

(** After [create]: the draft ["auto-0"], held by alice. *)
Definition hist1 : Store := after (createArticle exApp exCreate) emptyStore.

Definition exBodyFirst : Doc :=
  MkDoc (Some "auto-0") (Some "auto-0") None (Some "h") (Some "s") (Some "x") None None
    None (Some "alice") None None None (Some "alice").

Definition exSubmitFirst : Request := MkRequest "auto-0" "alice" (BodyJson exBodyFirst) ts1.

(** After the first submit: the version ["auto-0:" ++ ts1], no draft. *)
Definition hist2 : Store := after (submitArticle exApp exSubmitFirst) hist1.

Definition exFirstId : string := versionId "auto-0" ts1.
Definition exSecondId : string := versionId "auto-0" ts2.

Definition exEdit : Request := MkRequest exFirstId "bob" (BodyJson emptyDoc) 2000.

(** After bob's [edit] of the first version: a draft again, held by bob. *)
Definition hist3 : Store := after (editArticle exApp exEdit) hist2.

(** bob sends back what [edit] gave him, with a note and a new content. *)
Definition exBodySecond : Doc :=
  MkDoc (Some exFirstId) (Some "auto-0") None (Some "h") (Some "s") (Some "y") None
    (Some "second thoughts") (Some (ts1 / 10 ^ 6)) (Some "alice") None (Some "bob")
    (Some ts1) (Some "bob").

Definition exSubmitSecond : Request := MkRequest "auto-0" "bob" (BodyJson exBodySecond) ts2.

Definition hist4 : Store := after (submitArticle exApp exSubmitSecond) hist3.

Definition exPublishSecond : Request := MkRequest exSecondId "bob" (BodyJson emptyDoc) 3000.
Definition exPublishFirst : Request := MkRequest exFirstId "bob" (BodyJson emptyDoc) 4000.

(** After the second version is published. *)
Definition hist5 : Store := after (publishArticle exApp exPublishSecond) hist4.

(** The same body as [exBodySecond] without ["from_version"]. *)
Definition exBodyNoFrom : Doc :=
  MkDoc (Some exFirstId) (Some "auto-0") None (Some "h") (Some "s") (Some "y") None
    (Some "second thoughts") (Some (ts1 / 10 ^ 6)) (Some "alice") None (Some "bob")
    None (Some "bob").

Definition exSubmitNoFrom : Request := MkRequest "auto-0" "bob" (BodyJson exBodyNoFrom) ts2.

(** Two drafts, of alice and of bob. *)
Definition exCreateBob : Request := MkRequest "" "bob" (BodyJson emptyDoc) 1500.
Definition twoDrafts : Store := after (createArticle exApp exCreateBob) hist1.

(** alice submits her draft ["auto-0"] with a body whose guid is bob's. *)
Definition exBodyOtherGuid : Doc :=
  MkDoc None (Some "auto-1") None (Some "h") (Some "s") (Some "x") None None
    None None None None None None.

Definition exSubmitOtherGuid : Request :=
  MkRequest "auto-0" "alice" (BodyJson exBodyOtherGuid) ts1.

(** carol wants to edit the first version while bob's draft is there, and
    another instance of the service discards bob's draft right after carol's
    create was refused. *)
Definition exEditCarol : Request := MkRequest exFirstId "carol" (BodyJson emptyDoc) 2500.
Definition exDiscardBob : Request := MkRequest "auto-0" "bob" (BodyJson emptyDoc) 2500.

Definition discardElsewhere (st : Store) : Store := after (discardArticle exApp exDiscardBob) st.

Definition raceSchedule : list (Store -> Store) := [id; id; id; discardElsewhere].

(** Names for what a submit with the JSON body [bytes] works with: the
    parameters of its script, the draft it writes and the version it
    indexes. *)
Definition submitParams (r : Request) (bytes : Doc) : Params :=
  saveParams false (unmarshalArticle bytes) (Username r) (MkJSONTime (Now r)).

Definition submitDraft (r : Request) (bytes d : Doc) : Doc :=
  snd (ESScriptSaveArticle (submitParams r bytes) d).

Definition submitVersion (r : Request) (bytes : Doc) : Article :=
  versionProps (unmarshalArticle bytes) (CtxKeyId r) (Username r) (Now r).

(** bob submits his draft at the very instant of the first version. *)
Definition exSubmitCollide : Request := MkRequest "auto-0" "bob" (BodyJson exBodySecond) ts1.

(** Names used in the statements about edit and publish: the article that
    [getArticle] hands back for a stored document, the draft that
    [editArticle] makes of a version, and the article that
    [publishArticle] sends. *)
Definition loaded (id : string) (includes : list string) (d : Doc) : Article :=
  setId id (unmarshal (filterSource includes d)).

Definition editDraft (user : string) (a : Article) : Article :=
  setLockedBy user
    (setRevisedBy user (setRevisedAt None (setVersion 0 (setFromVersion (Version a) a)))).

Definition publishedArticle (a : Article) : Article :=
  setLockedBy "" (setId (Guid a) a).

(** A time that the wire format can carry exactly: whole milliseconds. *)
Definition wholeMillis (t : option JSONTime) : Prop :=
  match t with
  | Some jt => T jt mod 10 ^ 6 = 0
  | None => True
  end.

(** A body for bob's draft that names no guid. *)
Definition exBodyNoGuid : Doc :=
  MkDoc None None None (Some "h") (Some "s") (Some "y") None None
    None None None None (Some ts1) None.

Definition exSubmitNoGuid : Request := MkRequest "auto-0" "carol" (BodyJson exBodyNoGuid) ts2.

(** carol submits bob's draft. *)
Definition exSubmitCarol : Request := MkRequest "auto-0" "carol" (BodyJson exBodySecond) ts2.

(** The Publish row that a publish of the article [pa] leaves, given the
    row that was there. *)
Definition publishRow (old : option Doc) (pa : Article) : Doc :=
  match old with
  | Some row => mergeDoc row (marshal pa)
  | None => marshal pa
  end.

(** *** Shapes of programs

    [keepsVersions p]: [p] never asks the store to overwrite, update or
    delete a document of type version; the only write it may ask for there
    is a create-only index. *)
Definition keepsVersionsCall {R : Type} (c : Call R) : Prop :=
  match c with
  | IndexDo VersionType opCreate _ _ => opCreate = true
  | UpdateScriptDo VersionType _ _ _ _ => False
  | UpdateDocDo VersionType _ _ _ => False
  | DeleteDo VersionType _ => False
  | _ => True
  end.

Fixpoint keepsVersions {A : Type} (p : Prog A) : Prop :=
  match p with
  | Ret _ => True
  | Panic _ => True
  | Do c k => keepsVersionsCall c /\ forall r, keepsVersions (k r)
  end.

(** The seven handlers. *)
Definition handlers : list (AppRuntime -> Request -> Prog HttpResponseData) :=
  [createArticle; editArticle; saveArticle; submitArticle; discardArticle;
   publishArticle; unpublishArticle].

(** [wellLocked held p]: on every path [p] takes a lock only when it holds
    none, releases only the lock it holds, and holds none when it returns
    or panics. *)
Fixpoint wellLocked {A : Type} (held : option (Mutex * string)) (p : Prog A) : Prop :=
  match p with
  | Ret _ => held = None
  | Panic _ => held = None
  | Do c k =>
      match c in Call R0 return (R0 -> Prog A) -> Prop with
      | Lock m key => fun k' => held = None /\ forall r, wellLocked (Some (m, key)) (k' r)
      | Unlock m key => fun k' => held = Some (m, key) /\ forall r, wellLocked None (k' r)
      | _ => fun k' => forall r, wellLocked held (k' r)
      end k
  end.

Definition sameMutex (m m' : Mutex) : bool :=
  match m, m' with
  | draftLock, draftLock => true
  | publishLock, publishLock => true
  | _, _ => false
  end.

(** The same discipline read on the log of a run: the lock held after the
    steps, or [None] when a step breaks the discipline. *)
Fixpoint lockAfter (held : option (Mutex * string)) (l : list Step) :
    option (option (Mutex * string)) :=
  match l with
  | [] => Some held
  | SLock m key :: l' =>
      match held with
      | None => lockAfter (Some (m, key)) l'
      | Some _ => None
      end
  | SUnlock m key :: l' =>
      match held with
      | Some (m', key') =>
          if sameMutex m m' && String.eqb key key' then lockAfter None l' else None
      | None => None
      end
  | _ :: l' => lockAfter held l'
  end.

(** [noLocks p]: [p] never touches a mutex. *)
Definition noLockCall {R : Type} (c : Call R) : Prop :=
  match c with
  | Lock _ _ => False
  | Unlock _ _ => False
  | _ => True
  end.

Fixpoint noLocks {A : Type} (p : Prog A) : Prop :=
  match p with
  | Ret _ => True
  | Panic _ => True
  | Do c k => noLockCall c /\ forall r, noLocks (k r)
  end.

(** ** The audit decorator *)

(** A value of the field map handed to the logger. *)
Inductive LogValue : Type :=
| LogString (s : string)
| LogInt (n : Z).

(** What [addAuditLogFields] hands to the context logger of the request:
    the field map of its one [AddFields], and the id and the error that it
    gives to [Perrorf] when the id does not parse. *)
Record AuditLog : Type := MkAuditLog {
  Fields : gmap string LogValue;
  Perror : option (string * NumError)
}.

(** [d.Data.(Article)]: the only value that a handler puts in [Data] is the
    pointer [*Article] of [createArticle], so the assertion to the struct
    type [Article] does not hold and the id stays as it was. *)
Definition DataAsArticle (d : HttpResponseData) : option Article := None.

(** The body of the closure of [addAuditLogFields] after the handler has
    returned [d]. *)
Definition auditLog (action : string) (r : Request) (d : HttpResponseData) : AuditLog :=
  let id := CtxKeyId r in
  let id :=
    if String.eqb id "" then
      match DataAsArticle d with
      | Some a => Id a
      | None => id
      end
    else id in
  let fields : gmap string LogValue :=
    <["user" := LogString (Username r)]>
      (<["action" := LogString action]> (<["audit" := LogString "article"]> ∅)) in
  if negb (String.eqb id "") then
    match parseArticleId id with
    | (guid, ver, None) =>
        let fields := <["article_guid" := LogString guid]> fields in
        let fields :=
          if ver >? 0 then <["article_version" := LogInt ver]> fields else fields in
        MkAuditLog fields None
    | (_, _, Some err) => MkAuditLog fields (Some (id, err))
    end
  else MkAuditLog fields None.

Definition addAuditLogFields (action : string)
    (h : AppRuntime -> Request -> Prog HttpResponseData)
    (app : AppRuntime) (r : Request) : Prog (HttpResponseData * AuditLog) :=
  d ← h app r;
  mret (d, auditLog action r d).

(** The endpoints.  [GetRequiredStringArg], which reads the ["id"] argument
    into the request before the handler runs, is declared outside this
    file; here the request already carries it. *)
Definition ArticleCreate : AppRuntime -> Request -> Prog (HttpResponseData * AuditLog) :=
  addAuditLogFields "create" createArticle.
Definition ArticleSave : AppRuntime -> Request -> Prog (HttpResponseData * AuditLog) :=
  addAuditLogFields "save" saveArticle.
Definition ArticleSubmit : AppRuntime -> Request -> Prog (HttpResponseData * AuditLog) :=
  addAuditLogFields "submit" submitArticle.
Definition ArticleDiscard : AppRuntime -> Request -> Prog (HttpResponseData * AuditLog) :=
  addAuditLogFields "discard" discardArticle.
Definition ArticleEdit : AppRuntime -> Request -> Prog (HttpResponseData * AuditLog) :=
  addAuditLogFields "edit" editArticle.
Definition ArticlePublish : AppRuntime -> Request -> Prog (HttpResponseData * AuditLog) :=
  addAuditLogFields "publish" publishArticle.
Definition ArticleUnpublish : AppRuntime -> Request -> Prog (HttpResponseData * AuditLog) :=
  addAuditLogFields "unpublish" unpublishArticle.

(** The three fields that every audit record has. *)
Definition baseFields (action user : string) : gmap string LogValue :=
  <["user" := LogString user]>
    (<["action" := LogString action]> (<["audit" := LogString "article"]> ∅)).

(** [isPrefix p s]: the bytes of [p] are the first bytes of [s]. *)
Fixpoint isPrefix (p s : string) : bool :=
  match p, s with
  | EmptyString, _ => true
  | String a p', String b s' => Ascii.eqb a b && isPrefix p' s'
  | String _ _, EmptyString => false
  end.

(** A store that has the version asked for, refuses every create and has
    no draft to show. *)
Definition raceAnswers (R : Type) (c : Call R) : R :=
  match c in Call R0 return R0 with
  | GetDo VersionType id _ => Ok (MkGetResult true id exBodyFirst)
  | GetDo _ _ _ => Err errNotFound
  | IndexDo _ _ id _ => Ok (MkIndexResponse id false)
  | UpdateScriptDo _ _ _ _ _ => Err errNotFound
  | UpdateDocDo _ _ _ _ => Err errNotFound
  | DeleteDo _ _ => Err errNotFound
  | Lock _ _ => tt
  | Unlock _ _ => tt
  end.

(** A store that answers every scripted update with the given result. *)
Definition updateAnswers (res : Result UpdateResponse) (R : Type) (c : Call R) : R :=
  match c in Call R0 return R0 with
  | GetDo _ _ _ => Err errNotFound
  | IndexDo _ _ id _ => Ok (MkIndexResponse id false)
  | UpdateScriptDo _ _ _ _ _ => res
  | UpdateDocDo _ _ _ _ => Err errNotFound
  | DeleteDo _ _ => Err errNotFound
  | Lock _ _ => tt
  | Unlock _ _ => tt
  end.

(** The status that [saveArticle] gives to an answer of the store. *)
Definition saveStatus (res : Result UpdateResponse) : Z :=
  match res with
  | Ok resp =>
      if String.eqb (UpdResult resp) "noop" then StatusForbidden
      else if String.eqb (UpdResult resp) "updated" then StatusOK
      else StatusInternalServerError
  | Err err => if IsNotFound err then StatusNotFound else StatusInternalServerError
  end.

(** * Properties *)

(** ** The id codec *)

Section Codec.

Lemma digitVal_digitChar (d : Z) :
  0 <= d < 10 -> digitVal (digitChar d) = Some d.
Proof.
  intros Hd.
  assert (Hc : d = 0 \/ d = 1 \/ d = 2 \/ d = 3 \/ d = 4 \/ d = 5 \/ d = 6 \/
               d = 7 \/ d = 8 \/ d = 9) by lia.
  repeat (destruct Hc as [-> | Hc]; [reflexivity |]).
  subst d. reflexivity.
Qed.

Lemma digitVal_not_colon (c : ascii) (d : Z) :
  digitVal c = Some d -> Ascii.eqb c ":" = false.
Proof.
  intros Hc. destruct (Ascii.eqb_spec c ":") as [-> | _]; [| reflexivity].
  vm_compute in Hc. discriminate.
Qed.

Lemma allDigits_no_colon (s : string) :
  allDigits s = true -> hasByte ":" s = false.
Proof.
  induction s as [| a r IH]; simpl; [reflexivity |].
  destruct (digitVal a) as [d |] eqn:Ea; [| discriminate].
  intros Hr. rewrite (digitVal_not_colon a d Ea). simpl. auto.
Qed.

Lemma formatDigits_allDigits (fuel : nat) :
  forall (u : Z) (acc : string),
    0 <= u -> allDigits acc = true -> allDigits (formatDigits fuel u acc) = true.
Proof.
  induction fuel as [| f IH]; intros u acc Hu Hacc; simpl; [exact Hacc |].
  assert (Hd : allDigits (String (digitChar (u mod 10)) acc) = true).
  { simpl. rewrite digitVal_digitChar; [exact Hacc |].
    apply Z.mod_pos_bound. lia. }
  destruct (u / 10 =? 0); [exact Hd |].
  apply IH; [apply Z.div_pos; lia | exact Hd].
Qed.

Lemma formatDigits_nonempty (f : nat) (u : Z) (acc : string) :
  exists c r, formatDigits (S f) u acc = String c r.
Proof.
  revert u acc. induction f as [| f IH]; intros u acc.
  - simpl. destruct (u / 10 =? 0); eauto.
  - change (formatDigits (S (S f)) u acc)
      with (if u / 10 =? 0 then String (digitChar (u mod 10)) acc
            else formatDigits (S f) (u / 10) (String (digitChar (u mod 10)) acc)).
    destruct (u / 10 =? 0); eauto.
Qed.

(** Reading back the digits that [formatDigits] wrote: the accumulator [a]
    is shifted by as many digits and gets [u] added, provided no 64-bit
    overflow is met. *)
Lemma parseUintLoop_formatDigits (fuel : nat) :
  forall (u : Z) (rest : string),
    0 <= u < 10 ^ Z.of_nat fuel ->
    exists k : Z, 0 <= k /\
      forall a : Z, 0 <= a -> a * 10 ^ k + u <= maxUint64 ->
        parseUintLoop (formatDigits fuel u rest) a = parseUintLoop rest (a * 10 ^ k + u).
Proof.
  induction fuel as [| f IH]; intros u rest Hu.
  - exists 0. split; [lia |]. intros a Ha Hb.
    change (10 ^ Z.of_nat 0) with 1 in Hu. change (10 ^ 0) with 1.
    replace (a * 1 + u) with a by lia. reflexivity.
  - assert (Hdiv : 0 <= u / 10) by (apply Z.div_pos; lia).
    assert (Hmod : 0 <= u mod 10 < 10) by (apply Z.mod_pos_bound; lia).
    assert (Hu10 : u = 10 * (u / 10) + u mod 10) by (apply Z.div_mod; lia).
    assert (Hstep : forall m, 0 <= m -> m * 10 + u mod 10 <= maxUint64 ->
              parseUintLoop (String (digitChar (u mod 10)) rest) m
              = parseUintLoop rest (m * 10 + u mod 10)).
    { intros m Hm Hb. simpl. rewrite digitVal_digitChar by exact Hmod.
      unfold maxUint64 in *.
      change ((2 ^ 64 - 1) / 10 + 1) with 1844674407370955162.
      change (2 ^ 64 - 1) with 18446744073709551615 in *.
      destruct (Z.geb_spec m 1844674407370955162) as [Hge | Hlt]; [lia |].
      unfold wrapU64. change (2 ^ 64) with 18446744073709551616.
      rewrite (Z.mod_small (m * 10)) by lia.
      rewrite (Z.mod_small (m * 10 + u mod 10)) by lia.
      destruct (Z.ltb_spec (m * 10 + u mod 10) (m * 10)) as [Hw | _]; [lia |].
      destruct (Z.gtb_spec (m * 10 + u mod 10) 18446744073709551615) as [Hw | _]; [lia |].
      reflexivity. }
    simpl formatDigits.
    destruct (Z.eqb_spec (u / 10) 0) as [Hz | Hnz].
    + exists 1. split; [lia |]. intros a Ha Hb.
      change (10 ^ 1) with 10 in *.
      assert (u = u mod 10) by lia.
      rewrite Hstep by lia. f_equal. lia.
    + destruct (IH (u / 10) (String (digitChar (u mod 10)) rest)) as (k & Hk & Hrec).
      { split; [lia |].
        apply Z.div_lt_upper_bound; [lia |].
        replace (10 * 10 ^ Z.of_nat f) with (10 ^ Z.of_nat (S f)); [lia |].
        rewrite Nat2Z.inj_succ, Z.pow_succ_r by lia. reflexivity. }
      exists (k + 1). split; [lia |]. intros a Ha Hb.
      assert (Hpow : 10 ^ (k + 1) = 10 ^ k * 10) by (rewrite Z.pow_add_r by lia; reflexivity).
      assert (Hpos : 0 <= a * 10 ^ k) by (apply Z.mul_nonneg_nonneg; [lia | apply Z.pow_nonneg; lia]).
      rewrite Hpow in *.
      rewrite Hrec; [| lia | lia].
      rewrite Hstep; [f_equal; lia | lia | lia].
Qed.

Lemma digitVal_not_sign (c : ascii) (d : Z) :
  digitVal c = Some d -> Ascii.eqb c "+" = false /\ Ascii.eqb c "-" = false.
Proof.
  intros Hc. split.
  - destruct (Ascii.eqb_spec c "+") as [-> | _]; [| reflexivity].
    vm_compute in Hc. discriminate.
  - destruct (Ascii.eqb_spec c "-") as [-> | _]; [| reflexivity].
    vm_compute in Hc. discriminate.
Qed.

Lemma wrap64_small (v : Z) : minInt64 <= v <= maxInt64 -> wrap64 v = v.
Proof.
  unfold wrap64, minInt64, maxInt64. intros Hv.
  rewrite Z.mod_small; lia.
Qed.

(** A positive [int64] printed by [FormatInt] is read back by [ParseInt]. *)
Lemma ParseInt_FormatInt (v : Z) :
  0 < v <= maxInt64 -> ParseInt (FormatInt v) = (v, None).
Proof.
  intros Hv. unfold FormatInt.
  destruct (Z.ltb_spec v 0) as [Hneg | _]; [lia |].
  destruct (formatDigits_nonempty 19 v "") as (c & r & Hs).
  assert (Hall : allDigits (formatDigits 20 v "") = true)
    by (apply formatDigits_allDigits; [lia | reflexivity]).
  destruct (parseUintLoop_formatDigits 20 v "") as (k & Hk & Hloop).
  { unfold maxInt64 in Hv. change (10 ^ Z.of_nat 20) with 100000000000000000000.
    change (2 ^ 63 - 1) with 9223372036854775807 in Hv. lia. }
  specialize (Hloop 0 ltac:(lia)).
  rewrite Z.mul_0_l, Z.add_0_l in Hloop.
  assert (Hmax : v <= maxUint64).
  { unfold maxInt64, maxUint64 in *. change (2 ^ 63 - 1) with 9223372036854775807 in Hv.
    change (2 ^ 64 - 1) with 18446744073709551615. lia. }
  specialize (Hloop Hmax). rewrite Hs in Hloop, Hall |- *.
  simpl in Hall. destruct (digitVal c) as [d |] eqn:Ec; [| discriminate].
  destruct (digitVal_not_sign c d Ec) as [Hplus Hminus].
  unfold ParseInt. rewrite Hplus, Hminus.
  unfold ParseUint. rewrite Hloop. simpl parseUintLoop. cbv iota beta.
  simpl negb. rewrite andb_true_l, andb_false_l.
  destruct (Z.geb_spec v (2 ^ 63)) as [Hge | _].
  { unfold maxInt64 in Hv. lia. }
  rewrite wrap64_small; [reflexivity |].
  unfold minInt64, maxInt64 in *. lia.
Qed.

Lemma substring_all (s : string) : String.substring 0 (String.length s) s = s.
Proof. induction s as [| a r IH]; simpl; [reflexivity | now rewrite IH]. Qed.

Lemma slice_prefix (g s : string) :
  slice (g ++ s)%string 0 (String.length g) = g.
Proof.
  unfold slice. rewrite Nat.sub_0_r.
  induction g as [| a r IH]; simpl.
  - destruct s; reflexivity.
  - now rewrite IH.
Qed.

Lemma sliceFrom_suffix (g : string) (c : ascii) (s : string) :
  sliceFrom (g ++ String c s)%string (String.length g + 1) = s.
Proof.
  unfold sliceFrom.
  induction g as [| a r IH]; simpl.
  - rewrite Nat.sub_0_r. apply substring_all.
  - exact IH.
Qed.

Lemma LastIndex_from_absent (c : ascii) (s : string) :
  forall i last, hasByte c s = false -> LastIndex_from s c i last = last.
Proof.
  induction s as [| a r IH]; intros i last Hs; simpl in *; [reflexivity |].
  apply orb_false_iff in Hs as [Ha Hr]. rewrite Ha. now apply IH.
Qed.

Lemma LastIndex_from_last (c : ascii) (g s : string) :
  forall i last, hasByte c s = false ->
    LastIndex_from (g ++ String c s)%string c i last = i + Z.of_nat (String.length g).
Proof.
  induction g as [| a r IH]; intros i last Hs.
  - simpl. rewrite Ascii.eqb_refl, LastIndex_from_absent by exact Hs. lia.
  - change (LastIndex_from (String a r ++ String c s) c i last)
      with (LastIndex_from (r ++ String c s)%string c (i + 1)
              (if Ascii.eqb a c then i else last)).
    rewrite IH by exact Hs. simpl String.length. lia.
Qed.

Lemma LastIndex_last (g s : string) :
  hasByte ":" s = false ->
  LastIndex (g ++ ":" ++ s)%string ":" = Z.of_nat (String.length g).
Proof.
  intros Hs. unfold LastIndex.
  change (":" ++ s)%string with (String ":" s).
  now rewrite LastIndex_from_last.
Qed.

Lemma parseArticleId_at_last (g s : string) :
  g <> "" -> hasByte ":" s = false ->
  parseArticleId (g ++ ":" ++ s)%string =
    match ParseInt s with
    | (ver, None) => (g, ver, None)
    | (_, Some err) => (g, 0, Some err)
    end.
Proof.
  intros Hg Hs. unfold parseArticleId.
  rewrite (LastIndex_last g s Hs).
  destruct (Z.leb_spec (Z.of_nat (String.length g)) 0) as [Hle | _].
  { destruct g; [congruence | simpl in Hle; lia]. }
  rewrite Nat2Z.id, slice_prefix.
  change (":" ++ s)%string with (String ":" s).
  rewrite sliceFrom_suffix. reflexivity.
Qed.

(** C9, as amended.  [parseArticleId] splits at the last [':'] only when
    that byte is not the first one.  An id without [':'], or whose only
    [':'] is its first byte, comes back whole with version 0 and no error.
    Otherwise the guid is the text before the last [':']; the version is
    the value of the suffix when [ParseInt] accepts it, and when it does not
    the version is 0, the guid is still the prefix and the parse error is
    returned. *)
Theorem parseArticleId_split (id : string) :
  (hasByte ":" id = false -> parseArticleId id = (id, 0, None)) /\
  (forall s, hasByte ":" s = false -> id = String ":" s ->
     parseArticleId id = (id, 0, None)) /\
  (forall g s, g <> "" -> hasByte ":" s = false -> id = (g ++ ":" ++ s)%string ->
     parseArticleId id =
       match ParseInt s with
       | (ver, None) => (g, ver, None)
       | (_, Some err) => (g, 0, Some err)
       end).
Proof.
  split; [| split].
  - intros Hno. unfold parseArticleId, LastIndex.
    rewrite LastIndex_from_absent by exact Hno. reflexivity.
  - intros s Hs ->. unfold parseArticleId.
    pose proof (LastIndex_last "" s Hs) as Hl.
    change ("" ++ ":" ++ s)%string with (String ":" s) in Hl.
    rewrite Hl. reflexivity.
  - intros g s Hg Hs ->. now apply parseArticleId_at_last.
Qed.

Lemma parseArticleId_split_witness :
  parseArticleId "abc" = ("abc", 0, None) /\
  parseArticleId ":5" = (":5", 0, None) /\
  parseArticleId "a:b:42" = ("a:b", 42, None) /\
  parseArticleId "abc:xyz" = ("abc", 0, Some ErrSyntax).
Proof.
  split; [| split; [| split]].
  - apply (proj1 (parseArticleId_split "abc")). reflexivity.
  - apply (proj1 (proj2 (parseArticleId_split ":5")) "5"); reflexivity.
  - apply (proj2 (proj2 (parseArticleId_split "a:b:42")) "a:b" "42");
      [discriminate | reflexivity | reflexivity].
  - apply (proj2 (proj2 (parseArticleId_split "abc:xyz")) "abc" "xyz");
      [discriminate | reflexivity | reflexivity].
Defined.

(** C9 as the specification words it fails: the suffix of ["abc:xyz"] is
    not an integer, yet the guid that comes back is the prefix ["abc"], not
    the whole string, and an error comes with it. *)
Lemma parseArticleId_bad_suffix_counterexample :
  snd (ParseInt "xyz") <> None /\
  parseArticleId "abc:xyz" = ("abc", 0, Some ErrSyntax) /\
  fst (fst (parseArticleId "abc:xyz")) <> "abc:xyz".
Proof.
  split; [| split].
  - vm_compute. discriminate.
  - reflexivity.
  - vm_compute. discriminate.
Qed.

(** C10.  The id that submit builds from a non-empty guid and a positive
    [int64] version parses back to that guid and that version, without
    error, also when the guid has [':'] in it. *)
Theorem parseArticleId_versionId (g : string) (v : Z) :
  g <> "" -> 0 < v <= maxInt64 ->
  parseArticleId (versionId g v) = (g, v, None).
Proof.
  intros Hg Hv. unfold versionId.
  assert (Hno : hasByte ":" (FormatInt v) = false).
  { apply allDigits_no_colon. unfold FormatInt.
    destruct (Z.ltb_spec v 0); [lia |].
    apply formatDigits_allDigits; [lia | reflexivity]. }
  rewrite (parseArticleId_at_last g (FormatInt v) Hg Hno).
  now rewrite ParseInt_FormatInt.
Qed.

Lemma parseArticleId_versionId_witness :
  parseArticleId (versionId "a:b" 1500000000123456789)
  = ("a:b", 1500000000123456789, None).
Proof.
  apply parseArticleId_versionId; [discriminate | unfold maxInt64; lia].
Defined.

End Codec.

(** ** Runs against the store *)

Section Runs.

Lemma run_defer_unlock {A : Type} (m : Mutex) (key : string) (p : Prog A) :
  forall st,
    exec esDo (defer (Unlock m key) p) st = endStep (SUnlock m key) (exec esDo p st).
Proof.
  induction p as [a | msg | R c k IH]; intros st; [reflexivity | reflexivity |].
  simpl. rewrite IH. reflexivity.
Qed.

Lemma run_withLock {A : Type} (m : Mutex) (key : string) (p : Prog A) (st : Store) :
  run (withLock m key p) st = logStep (SLock m key) (endStep (SUnlock m key) (run p st)).
Proof.
  unfold run, withLock. simpl. rewrite run_defer_unlock. reflexivity.
Qed.

Lemma run_call {A R : Type} (c : Call R) (k : R -> Prog A) (st : Store) :
  run (call c ≫= k) st
  = logStep (stepOf c) (run (k (fst (esDo _ c st))) (snd (esDo _ c st))).
Proof. reflexivity. Qed.

Lemma run_ret {A : Type} (a : A) (st : Store) :
  run (mret a) st = MkRan (Returned a) st [].
Proof. reflexivity. Qed.

End Runs.

(** ** Save *)

Section Save.

Lemma eqb_nonempty (s : string) : s <> "" -> String.eqb s "" = false.
Proof. intros Hs. now apply String.eqb_neq. Qed.

(** C1.  A save by a user who is not the one in the draft's [locked_by]
    never changes the store, whatever the body; and when the body is
    readable JSON the answer is Forbidden (403). *)
Theorem save_by_other_user (app : AppRuntime) (r : Request) (st : Store) (d : Doc) :
  CtxKeyId r <> "" ->
  drafts st !! CtxKeyId r = Some d ->
  f_locked_by d <> Some (Username r) ->
  final (run (saveArticle app r) st) = st /\
  (forall bytes, ReqBodyOf r = BodyJson bytes ->
     exists resp,
       outcome (run (saveArticle app r) st) = Returned resp /\
       Status resp = StatusForbidden /\
       Body resp = TextBody "Update article locked by another user is not allowed!").
Proof.
  intros Hid Hd Hlock. unfold run, saveArticle.
  destruct (ReqBodyOf r) as [err | err | bytes]; [split; [reflexivity | discriminate] .. |].
  cbn. unfold esUpdateScript. rewrite (eqb_nonempty _ Hid). cbn. rewrite Hd.
  unfold ESScriptSaveArticle. cbn.
  rewrite bool_decide_eq_false_2 by exact Hlock. cbn.
  split; [reflexivity |]. intros bytes' _. eexists. repeat split.
Qed.

Lemma save_by_other_user_witness :
  final (run (saveArticle exApp exSaveBob) exStore) = exStore /\
  (forall bytes, ReqBodyOf exSaveBob = BodyJson bytes ->
     exists resp,
       outcome (run (saveArticle exApp exSaveBob) exStore) = Returned resp /\
       Status resp = StatusForbidden /\
       Body resp = TextBody "Update article locked by another user is not allowed!").
Proof.
  apply (save_by_other_user exApp exSaveBob exStore exDraft);
    [discriminate | reflexivity | discriminate].
Defined.

(** C6.  A save by the user in the draft's [locked_by] returns 200 and
    writes the five fields of the body into the draft; this is so also when
    the body brings the values the draft already has, which is therefore
    not answered with Forbidden (403). *)
Theorem save_by_lock_owner (app : AppRuntime) (r : Request) (st : Store) (d bytes : Doc) :
  CtxKeyId r <> "" ->
  ReqBodyOf r = BodyJson bytes ->
  drafts st !! CtxKeyId r = Some d ->
  f_locked_by d = Some (Username r) ->
  exists resp,
    outcome (run (saveArticle app r) st) = Returned resp /\
    Status resp = StatusOK /\
    Status resp <> StatusForbidden /\
    drafts (final (run (saveArticle app r) st)) !! CtxKeyId r
    = Some (snd (ESScriptSaveArticle
                   (saveParams true (unmarshalArticle bytes) (Username r)
                      (MkJSONTime (Now r))) d)).
Proof.
  intros Hid Hbody Hd Hlock. unfold run, saveArticle. rewrite Hbody.
  cbn. unfold esUpdateScript. rewrite (eqb_nonempty _ Hid). cbn. rewrite Hd.
  unfold ESScriptSaveArticle. cbn.
  rewrite bool_decide_eq_true_2 by exact Hlock. cbn.
  eexists. split; [reflexivity |]. split; [reflexivity |]. split; [discriminate |].
  apply lookup_insert_eq.
Qed.

Lemma save_by_lock_owner_witness :
  exists resp,
    outcome (run (saveArticle exApp exSaveAliceSame) exStore) = Returned resp /\
    Status resp = StatusOK /\
    Status resp <> StatusForbidden /\
    drafts (final (run (saveArticle exApp exSaveAliceSame) exStore)) !! "A1"
    = Some exDraft.
Proof.
  apply (save_by_lock_owner exApp exSaveAliceSame exStore exDraft exBodySame);
    [discriminate | reflexivity | reflexivity | reflexivity].
Defined.

(** Whatever the store, [saveArticle] answers a ["noop"] update with
    Forbidden: it has no other reading of that result. *)
Lemma save_noop_is_forbidden (app : AppRuntime) (r : Request) (bytes : Doc)
    (answer : forall R, Call R -> R) :
  ReqBodyOf r = BodyJson bytes ->
  (forall typ id script params detectNoop,
     answer _ (UpdateScriptDo typ id script params detectNoop)
     = Ok (MkUpdateResponse "noop")) ->
  outcome (runWith answer (saveArticle app r))
  = Returned (CreateForbiddenRespData
                "Update article locked by another user is not allowed!").
Proof.
  intros Hbody Hnoop. unfold runWith, saveArticle. rewrite Hbody.
  cbn. rewrite Hnoop. reflexivity.
Qed.

(** X29.  How [saveArticle] reads the answer of the store, whatever the
    store: an error that is a 404 gives NotFound (404), any other error
    Internal (500); the result ["noop"] gives Forbidden (403), ["updated"]
    gives 200, any other result Internal (500).  The one update is the
    only store call, between the lock and the unlock of the request id. *)
Theorem save_answer_mapping (app : AppRuntime) (r : Request) (bytes : Doc)
    (answer : forall R, Call R -> R) :
  ReqBodyOf r = BodyJson bytes ->
  (exists resp,
     outcome (runWith answer (saveArticle app r)) = Returned resp /\
     Status resp
     = saveStatus
         (answer _ (UpdateScriptDo DraftType (CtxKeyId r) ESScriptSaveArticle
                      (saveParams true (unmarshalArticle bytes) (Username r)
                         (MkJSONTime (Now r))) true))) /\
  steps (runWith answer (saveArticle app r))
  = [SLock draftLock (CtxKeyId r); SUpdate DraftType (CtxKeyId r);
     SUnlock draftLock (CtxKeyId r)].
Proof.
  intros Hbody. unfold runWith, saveArticle. rewrite Hbody. cbn.
  destruct (answer _ _) as [resp | err]; cbn.
  - destruct (String.eqb (UpdResult resp) "noop"); cbn;
      [split; [eexists; split; reflexivity | reflexivity] |].
    destruct (String.eqb (UpdResult resp) "updated"); cbn;
      split; try reflexivity; eexists; split; reflexivity.
  - destruct (IsNotFound err); cbn; split; try reflexivity; eexists; split; reflexivity.
Qed.

Lemma save_answer_mapping_witness :
  (exists resp,
     outcome (runWith (updateAnswers (Ok (MkUpdateResponse "deleted")))
                (saveArticle exApp exSaveBob)) = Returned resp /\
     Status resp = StatusInternalServerError) /\
  steps (runWith (updateAnswers (Ok (MkUpdateResponse "deleted")))
           (saveArticle exApp exSaveBob))
  = [SLock draftLock "A1"; SUpdate DraftType "A1"; SUnlock draftLock "A1"].
Proof.
  apply (save_answer_mapping exApp exSaveBob exBodyNew
           (updateAnswers (Ok (MkUpdateResponse "deleted")))).
  reflexivity.
Defined.

End Save.

(** ** Submit *)

Section Submit.

Lemma versionId_nonempty (g : string) (v : Z) : String.eqb (versionId g v) "" = false.
Proof. unfold versionId. destruct g; reflexivity. Qed.

Lemma versionProps_Id (a : Article) (g u : string) (ts : Z) :
  Id (versionProps a g u ts) = versionId g (UnixNano ts).
Proof. unfold versionProps. cbn. destruct (FromVersion a =? 0); reflexivity. Qed.

Lemma versionProps_Guid (a : Article) (g u : string) (ts : Z) :
  Guid (versionProps a g u ts) = Guid a.
Proof. unfold versionProps. cbn. destruct (FromVersion a =? 0); reflexivity. Qed.

Lemma versionProps_Version (a : Article) (g u : string) (ts : Z) :
  Version (versionProps a g u ts) = UnixNano ts.
Proof. unfold versionProps. cbn. destruct (FromVersion a =? 0); reflexivity. Qed.

Lemma versionProps_LockedBy (a : Article) (g u : string) (ts : Z) :
  LockedBy (versionProps a g u ts) = "".
Proof. reflexivity. Qed.

Lemma submitVersion_Id (r : Request) (bytes : Doc) :
  Id (submitVersion r bytes) = versionId (CtxKeyId r) (UnixNano (Now r)).
Proof. apply versionProps_Id. Qed.

Lemma submitVersion_Guid (r : Request) (bytes : Doc) :
  Guid (submitVersion r bytes) = Guid (unmarshalArticle bytes).
Proof. apply versionProps_Guid. Qed.

(** The privileged update of submit: the script is run without the user
    check, so it always writes. *)
Lemma esUpdateScript_unchecked (st : Store) (g : string) (p : Params) (dn : bool) (d : Doc) :
  p_checkuser p = false -> g <> "" -> drafts st !! g = Some d ->
  esUpdateScript st DraftType g ESScriptSaveArticle p dn
  = (Ok (MkUpdateResponse "updated"),
     setDocs DraftType (<[g := snd (ESScriptSaveArticle p d)]> (drafts st)) st).
Proof.
  intros Hp Hg Hd. unfold esUpdateScript.
  rewrite (eqb_nonempty _ Hg). cbn [docs]. rewrite Hd.
  unfold ESScriptSaveArticle. rewrite Hp. reflexivity.
Qed.

Lemma esIndex_create (st : Store) (typ : IndexType) (id : string) (body : Article) :
  String.eqb id "" = false ->
  esIndex st typ true id body
  = match docs st typ !! id with
    | Some _ => (Ok (MkIndexResponse id false), st)
    | None =>
        (Ok (MkIndexResponse id true), setDocs typ (<[id := marshal body]> (docs st typ)) st)
    end.
Proof. intros Hid. unfold esIndex. rewrite Hid. reflexivity. Qed.

(** The run of a submit up to the answer of the store to the create of the
    version: the lock is taken, the draft is written, and the rest runs
    from there. *)
Lemma submit_run_to_index (app : AppRuntime) (r : Request) (st : Store) (bytes d : Doc) :
  ReqBodyOf r = BodyJson bytes ->
  CtxKeyId r <> "" ->
  drafts st !! CtxKeyId r = Some d ->
  run (submitArticle app r) st
  = logStep (SLock draftLock (CtxKeyId r))
      (endStep (SUnlock draftLock (CtxKeyId r))
         (logStep (SUpdate DraftType (CtxKeyId r))
            (run
               (idx ← call (IndexDo VersionType true (Id (submitVersion r bytes))
                              (submitVersion r bytes));
                match idx with
                | Err err =>
                    mret (CreateInternalServerErrorRespData
                            ("failed to create new article version, error: "
                               ++ ErrText err)%string)
                | Ok idxResp =>
                    if negb (Created idxResp) then
                      mret (CreateInternalServerErrorRespData
                              "no reason but article new version is not created!")
                    else
                      del ← call (DeleteDo DraftType (Guid (submitVersion r bytes)));
                      match del with
                      | Err err =>
                          mret (CreateInternalServerErrorRespData
                                  ("failed to delete article draft, error: "
                                     ++ ErrText err)%string)
                      | Ok _ => mret (marshalArticle (stripped (submitVersion r bytes)) StatusOK)
                      end
                end)
               (setDocs DraftType (<[CtxKeyId r := submitDraft r bytes d]> (drafts st)) st)))).
Proof.
  intros Hbody Hid Hd.
  unfold submitArticle. rewrite Hbody. cbv zeta.
  rewrite run_withLock, run_call. cbn [esDo].
  unfold submitDraft, submitVersion, submitParams.
  rewrite (esUpdateScript_unchecked st (CtxKeyId r)
             (saveParams false (unmarshalArticle bytes) (Username r) (MkJSONTime (Now r)))
             false d eq_refl Hid Hd).
  reflexivity.
Qed.

Lemma submitVersion_nonempty (r : Request) (bytes : Doc) :
  String.eqb (Id (submitVersion r bytes)) "" = false.
Proof. rewrite submitVersion_Id. apply versionId_nonempty. Qed.

(** The version id is taken: the answer is 500 after the create, with the
    draft written and still there. *)
Lemma submit_run_collision (app : AppRuntime) (r : Request) (st : Store) (bytes d v0 : Doc) :
  ReqBodyOf r = BodyJson bytes ->
  CtxKeyId r <> "" ->
  drafts st !! CtxKeyId r = Some d ->
  versions st !! Id (submitVersion r bytes) = Some v0 ->
  run (submitArticle app r) st
  = MkRan
      (Returned (CreateInternalServerErrorRespData
                   "no reason but article new version is not created!"))
      (setDocs DraftType (<[CtxKeyId r := submitDraft r bytes d]> (drafts st)) st)
      [SLock draftLock (CtxKeyId r); SUpdate DraftType (CtxKeyId r);
       SIndex VersionType (Id (submitVersion r bytes)); SUnlock draftLock (CtxKeyId r)].
Proof.
  intros Hbody Hid Hd Hv.
  rewrite (submit_run_to_index app r st bytes d Hbody Hid Hd), run_call. cbn [esDo].
  rewrite (esIndex_create _ VersionType _ _ (submitVersion_nonempty r bytes)).
  cbn [docs setDocs versions]. rewrite Hv. reflexivity.
Qed.

(** The version id is free and the draft under the guid of the body is
    there: the answer is 200, the version is written and that draft is
    deleted. *)
Lemma submit_run_ok (app : AppRuntime) (r : Request) (st : Store) (bytes d dg : Doc) :
  ReqBodyOf r = BodyJson bytes ->
  CtxKeyId r <> "" ->
  drafts st !! CtxKeyId r = Some d ->
  versions st !! Id (submitVersion r bytes) = None ->
  Guid (unmarshalArticle bytes) <> "" ->
  <[CtxKeyId r := submitDraft r bytes d]> (drafts st) !! Guid (unmarshalArticle bytes)
  = Some dg ->
  run (submitArticle app r) st
  = MkRan
      (Returned (marshalArticle (stripped (submitVersion r bytes)) StatusOK))
      (MkStore
         (delete (Guid (unmarshalArticle bytes))
            (<[CtxKeyId r := submitDraft r bytes d]> (drafts st)))
         (<[Id (submitVersion r bytes) := marshal (submitVersion r bytes)]> (versions st))
         (publishes st) (autoSeq st))
      [SLock draftLock (CtxKeyId r); SUpdate DraftType (CtxKeyId r);
       SIndex VersionType (Id (submitVersion r bytes));
       SDelete DraftType (Guid (unmarshalArticle bytes));
       SUnlock draftLock (CtxKeyId r)].
Proof.
  intros Hbody Hid Hd Hv Hg Hdg.
  rewrite (submit_run_to_index app r st bytes d Hbody Hid Hd), run_call. cbn [esDo].
  rewrite (esIndex_create _ VersionType _ _ (submitVersion_nonempty r bytes)).
  cbn [docs setDocs versions drafts publishes autoSeq]. rewrite Hv.
  cbn [fst snd Created negb]. rewrite run_call. cbn [esDo].
  rewrite submitVersion_Guid. unfold esDelete.
  rewrite (eqb_nonempty _ Hg). cbn [docs setDocs versions drafts publishes autoSeq].
  rewrite Hdg. reflexivity.
Qed.

(** The update of the draft fails: 500, and nothing else is asked of the
    store. *)
Lemma submit_run_update_err (app : AppRuntime) (r : Request) (st : Store) (bytes : Doc) (e : EsError)
    (st' : Store) :
  ReqBodyOf r = BodyJson bytes ->
  esUpdateScript st DraftType (CtxKeyId r) ESScriptSaveArticle (submitParams r bytes) false
  = (Err e, st') ->
  run (submitArticle app r) st
  = MkRan
      (Returned (CreateInternalServerErrorRespData
                   ("failed to save article draft " ++ CtxKeyId r ++ ", error: "
                      ++ ErrText e)%string))
      st'
      [SLock draftLock (CtxKeyId r); SUpdate DraftType (CtxKeyId r);
       SUnlock draftLock (CtxKeyId r)].
Proof.
  intros Hbody Hupd.
  unfold submitArticle. rewrite Hbody. cbv zeta.
  rewrite run_withLock, run_call. cbn [esDo].
  unfold submitParams in Hupd. rewrite Hupd. reflexivity.
Qed.

(** The delete of the draft fails: 500, with the draft written and the
    version created. *)
Lemma submit_run_delete_err (app : AppRuntime) (r : Request) (st : Store) (bytes d : Doc) (e : EsError)
    (st3 : Store) :
  ReqBodyOf r = BodyJson bytes ->
  CtxKeyId r <> "" ->
  drafts st !! CtxKeyId r = Some d ->
  versions st !! Id (submitVersion r bytes) = None ->
  esDelete
    (setDocs VersionType
       (<[Id (submitVersion r bytes) := marshal (submitVersion r bytes)]> (versions st))
       (setDocs DraftType (<[CtxKeyId r := submitDraft r bytes d]> (drafts st)) st))
    DraftType (Guid (unmarshalArticle bytes))
  = (Err e, st3) ->
  run (submitArticle app r) st
  = MkRan
      (Returned (CreateInternalServerErrorRespData
                   ("failed to delete article draft, error: " ++ ErrText e)%string))
      st3
      [SLock draftLock (CtxKeyId r); SUpdate DraftType (CtxKeyId r);
       SIndex VersionType (Id (submitVersion r bytes));
       SDelete DraftType (Guid (unmarshalArticle bytes));
       SUnlock draftLock (CtxKeyId r)].
Proof.
  intros Hbody Hid Hd Hv Hdel.
  rewrite (submit_run_to_index app r st bytes d Hbody Hid Hd), run_call. cbn [esDo].
  rewrite (esIndex_create _ VersionType _ _ (submitVersion_nonempty r bytes)).
  cbn [docs].
  replace (versions (setDocs DraftType (<[CtxKeyId r:=submitDraft r bytes d]> (drafts st)) st))
    with (versions st) by reflexivity.
  rewrite Hv.
  cbn [fst snd Created negb]. rewrite run_call. cbn [esDo].
  rewrite submitVersion_Guid, Hdel. reflexivity.
Qed.

(** The only way for [submitArticle] to answer 200 is the run of
    [submit_run_ok]. *)
Lemma submit_ok_inv (app : AppRuntime) (r : Request) (st : Store) (resp : HttpResponseData) :
  outcome (run (submitArticle app r) st) = Returned resp ->
  Status resp = StatusOK ->
  exists bytes d dg,
    ReqBodyOf r = BodyJson bytes /\
    CtxKeyId r <> "" /\
    drafts st !! CtxKeyId r = Some d /\
    versions st !! Id (submitVersion r bytes) = None /\
    Guid (unmarshalArticle bytes) <> "" /\
    <[CtxKeyId r := submitDraft r bytes d]> (drafts st) !! Guid (unmarshalArticle bytes)
    = Some dg.
Proof.
  intros Hout Hok.
  destruct (ReqBodyOf r) as [err | err | bytes] eqn:Hbody.
  1, 2: unfold submitArticle in Hout; rewrite Hbody, run_ret in Hout;
        injection Hout as <-; discriminate.
  destruct (esUpdateScript st DraftType (CtxKeyId r) ESScriptSaveArticle
              (submitParams r bytes) false) as [[upd | e] st'] eqn:Hupd.
  2: { rewrite (submit_run_update_err app r st bytes e st' Hbody Hupd) in Hout.
       injection Hout as <-; discriminate. }
  destruct (String.eqb_spec (CtxKeyId r) "") as [Hid | Hid].
  { unfold esUpdateScript in Hupd. rewrite Hid in Hupd. discriminate. }
  destruct (drafts st !! CtxKeyId r) as [d |] eqn:Hd.
  2: { unfold esUpdateScript in Hupd. rewrite (eqb_nonempty _ Hid) in Hupd.
       cbn [docs] in Hupd. rewrite Hd in Hupd. discriminate. }
  destruct (versions st !! Id (submitVersion r bytes)) as [v0 |] eqn:Hv.
  { rewrite (submit_run_collision app r st bytes d v0 Hbody Hid Hd Hv) in Hout.
    injection Hout as <-; discriminate. }
  destruct (esDelete
              (setDocs VersionType
                 (<[Id (submitVersion r bytes) := marshal (submitVersion r bytes)]>
                    (versions st))
                 (setDocs DraftType (<[CtxKeyId r := submitDraft r bytes d]> (drafts st)) st))
              DraftType (Guid (unmarshalArticle bytes))) as [[u | e] st3] eqn:Hdel.
  2: { rewrite (submit_run_delete_err app r st bytes d e st3 Hbody Hid Hd Hv Hdel) in Hout.
       injection Hout as <-; discriminate. }
  unfold esDelete in Hdel.
  destruct (String.eqb_spec (Guid (unmarshalArticle bytes)) "") as [Hg | Hg];
    [discriminate |].
  cbn [docs setDocs versions drafts publishes autoSeq] in Hdel.
  destruct (<[CtxKeyId r := submitDraft r bytes d]> (drafts st)
              !! Guid (unmarshalArticle bytes)) as [dg |] eqn:Hdg; [| discriminate].
  exists bytes, d, dg. repeat split; assumption.
Qed.

Lemma omitString_nonempty (s : string) : String.eqb s "" = false -> omitString s = Some s.
Proof. intros Hs. unfold omitString. now rewrite Hs. Qed.

Lemma default_omitInt (n : Z) : default 0 (omitInt n) = n.
Proof. unfold omitInt. destruct (Z.eqb_spec n 0); simpl; congruence. Qed.

Lemma stripped_payload (art : Article) :
  f_id (marshal (stripped art)) = omitString (Id art) /\
  f_version (marshal (stripped art)) = omitInt (Version art) /\
  Version (unmarshal (marshal (stripped art))) = Version art /\
  f_locked_by (marshal (stripped art)) = omitString (LockedBy art) /\
  f_headline (marshal (stripped art)) = None /\
  f_summary (marshal (stripped art)) = None /\
  f_content (marshal (stripped art)) = None /\
  f_tag (marshal (stripped art)) = None /\
  f_note (marshal (stripped art)) = None.
Proof.
  destruct art. cbn. rewrite default_omitInt. repeat split.
Qed.

(** What a submit that answers 200 answers with. *)
Lemma submit_ok_resp (app : AppRuntime) (r : Request) (st : Store) (resp : HttpResponseData) :
  outcome (run (submitArticle app r) st) = Returned resp ->
  Status resp = StatusOK ->
  exists bytes,
    ReqBodyOf r = BodyJson bytes /\
    resp = marshalArticle (stripped (submitVersion r bytes)) StatusOK.
Proof.
  intros Hout Hok.
  destruct (submit_ok_inv app r st resp Hout Hok)
    as (bytes & d & dg & Hbody & Hid & Hd & Hv & Hg & Hdg).
  rewrite (submit_run_ok app r st bytes d dg Hbody Hid Hd Hv Hg Hdg) in Hout.
  injection Hout as <-. exists bytes. split; [assumption | reflexivity].
Qed.

(** C2.  When submit answers 200 the payload is the JSON of the new
    version: its id is the request id, a [':'] and the decimal
    [UnixNano] of the instant of the call; its version is that number
    ([omitempty] leaves the key out when the number is 0, which reads back
    as 0); [locked_by] and the five content keys are absent. *)
Theorem submit_payload (app : AppRuntime) (r : Request) (st : Store) (resp : HttpResponseData) :
  outcome (run (submitArticle app r) st) = Returned resp ->
  Status resp = StatusOK ->
  exists p,
    Body resp = JsonBody p /\
    f_id p = Some (versionId (CtxKeyId r) (UnixNano (Now r))) /\
    f_version p = omitInt (UnixNano (Now r)) /\
    Version (unmarshal p) = UnixNano (Now r) /\
    f_locked_by p = None /\
    f_headline p = None /\ f_summary p = None /\ f_content p = None /\
    f_tag p = None /\ f_note p = None.
Proof.
  intros Hout Hok.
  destruct (submit_ok_resp app r st resp Hout Hok) as (bytes & _ & ->).
  pose proof (submitVersion_Id r bytes) as Hid.
  assert (Hver : Version (submitVersion r bytes) = UnixNano (Now r))
    by apply versionProps_Version.
  assert (Hlock : LockedBy (submitVersion r bytes) = "") by apply versionProps_LockedBy.
  destruct (stripped_payload (submitVersion r bytes))
    as (H1 & H2 & H3 & H4 & H5 & H6 & H7 & H8 & H9).
  exists (marshal (stripped (submitVersion r bytes))).
  rewrite H1, H2, H3, H4, Hid, Hver, Hlock.
  rewrite (omitString_nonempty _ (versionId_nonempty _ _)).
  repeat split; assumption.
Qed.

Lemma submit_payload_witness :
  exists resp p,
    outcome (run (submitArticle exApp exSubmitFirst) hist1) = Returned resp /\
    Status resp = StatusOK /\
    Body resp = JsonBody p /\
    f_id p = Some "auto-0:1500000000123456789" /\
    f_version p = Some 1500000000123456789 /\
    Version (unmarshal p) = 1500000000123456789 /\
    f_locked_by p = None /\
    f_headline p = None /\ f_summary p = None /\ f_content p = None /\
    f_tag p = None /\ f_note p = None.
Proof.
  pose (resp := marshalArticle (stripped (submitVersion exSubmitFirst exBodyFirst)) StatusOK).
  assert (Hout : outcome (run (submitArticle exApp exSubmitFirst) hist1) = Returned resp)
    by (vm_compute; reflexivity).
  assert (Hok : Status resp = StatusOK) by reflexivity.
  destruct (submit_payload exApp exSubmitFirst hist1 resp Hout Hok) as (p & Hp).
  exists resp, p. split; [exact Hout | split; [exact Hok | exact Hp]].
Defined.

(** C5.  When the id of the new version is already taken, the create-only
    write is answered "not created": submit answers 500, the calls of the
    run are the lock, the update of the draft, one create and the unlock
    (no second create, no delete), the draft is still there as the update
    wrote it, and the versions are untouched. *)
Theorem submit_collision (app : AppRuntime) (r : Request) (st : Store) (bytes d v0 : Doc) :
  ReqBodyOf r = BodyJson bytes ->
  CtxKeyId r <> "" ->
  drafts st !! CtxKeyId r = Some d ->
  versions st !! versionId (CtxKeyId r) (UnixNano (Now r)) = Some v0 ->
  (exists resp,
     outcome (run (submitArticle app r) st) = Returned resp /\
     Status resp = StatusInternalServerError /\
     Body resp = TextBody "no reason but article new version is not created!") /\
  steps (run (submitArticle app r) st)
  = [SLock draftLock (CtxKeyId r); SUpdate DraftType (CtxKeyId r);
     SIndex VersionType (versionId (CtxKeyId r) (UnixNano (Now r)));
     SUnlock draftLock (CtxKeyId r)] /\
  drafts (final (run (submitArticle app r) st)) !! CtxKeyId r
  = Some (submitDraft r bytes d) /\
  versions (final (run (submitArticle app r) st)) = versions st.
Proof.
  intros Hbody Hid Hd Hv.
  rewrite <- (submitVersion_Id r bytes) in Hv |- *.
  rewrite (submit_run_collision app r st bytes d v0 Hbody Hid Hd Hv).
  cbn [outcome final steps setDocs drafts versions].
  split; [eexists; repeat split |].
  split; [reflexivity |].
  split; [apply lookup_insert_eq | reflexivity].
Qed.

Lemma submit_collision_witness :
  (exists resp,
     outcome (run (submitArticle exApp exSubmitCollide) hist3) = Returned resp /\
     Status resp = StatusInternalServerError /\
     Body resp = TextBody "no reason but article new version is not created!") /\
  steps (run (submitArticle exApp exSubmitCollide) hist3)
  = [SLock draftLock "auto-0"; SUpdate DraftType "auto-0";
     SIndex VersionType "auto-0:1500000000123456789"; SUnlock draftLock "auto-0"] /\
  drafts (final (run (submitArticle exApp exSubmitCollide) hist3)) !! "auto-0"
  = Some (submitDraft exSubmitCollide exBodySecond
            (default emptyDoc (drafts hist3 !! "auto-0"))) /\
  versions (final (run (submitArticle exApp exSubmitCollide) hist3)) = versions hist3.
Proof.
  apply (submit_collision exApp exSubmitCollide hist3 exBodySecond
           (default emptyDoc (drafts hist3 !! "auto-0"))
           (default emptyDoc (versions hist3 !! exFirstId)));
    [reflexivity | discriminate | vm_compute; reflexivity | vm_compute; reflexivity].
Defined.

(** The drafts after a submit that answered 200: the draft under the guid
    of the body is gone, every other one is as the update left it. *)
Lemma submit_ok_drafts (app : AppRuntime) (r : Request) (st : Store)
    (resp : HttpResponseData) :
  outcome (run (submitArticle app r) st) = Returned resp ->
  Status resp = StatusOK ->
  exists bytes d,
    ReqBodyOf r = BodyJson bytes /\
    drafts st !! CtxKeyId r = Some d /\
    Guid (unmarshalArticle bytes) <> "" /\
    drafts (final (run (submitArticle app r) st))
    = delete (Guid (unmarshalArticle bytes))
        (<[CtxKeyId r := submitDraft r bytes d]> (drafts st)) /\
    versions (final (run (submitArticle app r) st))
    = <[Id (submitVersion r bytes) := marshal (submitVersion r bytes)]> (versions st).
Proof.
  intros Hout Hok.
  destruct (submit_ok_inv app r st resp Hout Hok)
    as (bytes & d & dg & Hbody & Hid & Hd & Hv & Hg & Hdg).
  rewrite (submit_run_ok app r st bytes d dg Hbody Hid Hd Hv Hg Hdg).
  exists bytes, d. repeat split; assumption.
Qed.

(** C7, where the code departs from it.  alice submits her draft
    ["auto-0"] with a body whose guid is ["auto-1"], the draft of bob: the
    answer is 200, the delete went to ["auto-1"], alice's draft is still
    there and bob's is gone. *)
Theorem submit_deletes_guid_of_body :
  drafts twoDrafts !! "auto-1" <> None /\
  (exists resp,
     outcome (run (submitArticle exApp exSubmitOtherGuid) twoDrafts) = Returned resp /\
     Status resp = StatusOK) /\
  steps (run (submitArticle exApp exSubmitOtherGuid) twoDrafts)
  = [SLock draftLock "auto-0"; SUpdate DraftType "auto-0";
     SIndex VersionType "auto-0:1500000000123456789";
     SDelete DraftType "auto-1"; SUnlock draftLock "auto-0"] /\
  drafts (final (run (submitArticle exApp exSubmitOtherGuid) twoDrafts)) !! "auto-0" <> None /\
  drafts (final (run (submitArticle exApp exSubmitOtherGuid) twoDrafts)) !! "auto-1" = None.
Proof.
  split; [vm_compute; discriminate |].
  split; [eexists; split; vm_compute; reflexivity |].
  split; [vm_compute; reflexivity |].
  split; [vm_compute; discriminate | vm_compute; reflexivity].
Qed.

End Submit.

(** ** Provenance: who sets [created_at] and [revised_at] *)

Section Provenance.

(** [createArticle] stores a draft that has [locked_by] and nothing
    else. *)
Lemma create_ok_draft (app : AppRuntime) (r : Request) (st : Store)
    (resp : HttpResponseData) :
  outcome (run (createArticle app r) st) = Returned resp ->
  Status resp = StatusOK ->
  drafts (final (run (createArticle app r) st)) !! autoId (autoSeq st)
  = Some (marshal (setFromVersion 0 (setLockedBy (Username r) emptyArticle))).
Proof.
  unfold createArticle. cbv zeta. rewrite run_call. cbn [esDo].
  unfold esIndex. cbn [String.eqb docs].
  destruct (drafts st !! autoId (autoSeq st)) as [d0 |] eqn:Hfree.
  - cbn [fst snd]. rewrite run_ret. cbn [outcome logStep].
    intros [= <-]. discriminate.
  - intros _ _. cbn [fst snd]. rewrite run_ret. cbn [final logStep setDocs drafts].
    apply lookup_insert_eq.
Qed.

Lemma versionProps_create (a : Article) (g u : string) (ts : Z) :
  FromVersion a = 0 ->
  CreatedAt (versionProps a g u ts) = Some (MkJSONTime ts) /\
  CreatedBy (versionProps a g u ts) = u /\
  RevisedAt (versionProps a g u ts) = None /\
  RevisedBy (versionProps a g u ts) = "".
Proof.
  intros H0. unfold versionProps. cbn. rewrite H0. repeat split.
Qed.

Lemma versionProps_edit (a : Article) (g u : string) (ts : Z) :
  FromVersion a <> 0 ->
  RevisedAt (versionProps a g u ts) = Some (MkJSONTime ts) /\
  RevisedBy (versionProps a g u ts) = u /\
  CreatedAt (versionProps a g u ts) = CreatedAt a /\
  CreatedBy (versionProps a g u ts) = CreatedBy a.
Proof.
  intros H0. unfold versionProps. cbn.
  destruct (Z.eqb_spec (FromVersion a) 0) as [E | _]; [contradiction |].
  repeat split.
Qed.

(** C8, as amended.  [create] stores no [created_at] and no [created_by].
    It is submit that sets them, in the version it creates, and it goes by
    the [from_version] of the request body: when that is 0 the version gets
    the instant and the user of the submit as [created_at] and [created_by]
    and no [revised_at] nor [revised_by]; when it is not 0 the version gets
    the instant and the user of the submit as [revised_at] and [revised_by]
    and keeps the [created_at] and [created_by] of the body. *)
Theorem provenance_set_by_submit :
  (forall app r st resp,
     outcome (run (createArticle app r) st) = Returned resp ->
     Status resp = StatusOK ->
     exists row,
       drafts (final (run (createArticle app r) st)) !! autoId (autoSeq st) = Some row /\
       f_created_at row = None /\ f_created_by row = None) /\
  (forall app r st resp,
     outcome (run (submitArticle app r) st) = Returned resp ->
     Status resp = StatusOK ->
     exists bytes row,
       ReqBodyOf r = BodyJson bytes /\
       versions (final (run (submitArticle app r) st))
         !! versionId (CtxKeyId r) (UnixNano (Now r)) = Some row /\
       (FromVersion (unmarshalArticle bytes) = 0 ->
        f_created_at row = Some (Now r / 10 ^ 6) /\
        f_created_by row = omitString (Username r) /\
        f_revised_at row = None /\ f_revised_by row = None) /\
       (FromVersion (unmarshalArticle bytes) <> 0 ->
        f_revised_at row = Some (Now r / 10 ^ 6) /\
        f_revised_by row = omitString (Username r) /\
        f_created_at row = MarshalJSON <$> CreatedAt (unmarshalArticle bytes) /\
        f_created_by row = omitString (CreatedBy (unmarshalArticle bytes)))).
Proof.
  split.
  - intros app r st resp Hout Hok.
    rewrite (create_ok_draft app r st resp Hout Hok).
    eexists. split; [reflexivity |]. split; reflexivity.
  - intros app r st resp Hout Hok.
    destruct (submit_ok_drafts app r st resp Hout Hok)
      as (bytes & d & Hbody & _ & _ & _ & Hvers).
    exists bytes, (marshal (submitVersion r bytes)).
    split; [exact Hbody |].
    split.
    { rewrite Hvers, <- (submitVersion_Id r bytes). apply lookup_insert_eq. }
    unfold submitVersion. cbn [marshal f_created_at f_created_by f_revised_at f_revised_by].
    split; intros H0.
    + destruct (versionProps_create (unmarshalArticle bytes) (CtxKeyId r) (Username r)
                  (Now r) H0) as (-> & -> & -> & ->).
      repeat split.
    + destruct (versionProps_edit (unmarshalArticle bytes) (CtxKeyId r) (Username r)
                  (Now r) H0) as (-> & -> & -> & ->).
      repeat split.
Qed.

Lemma provenance_set_by_submit_witness :
  (exists row,
     drafts hist1 !! "auto-0" = Some row /\
     f_created_at row = None /\ f_created_by row = None) /\
  (exists row,
     versions hist2 !! exFirstId = Some row /\
     f_created_at row = Some 1500000000123 /\ f_created_by row = Some "alice" /\
     f_revised_at row = None /\ f_revised_by row = None) /\
  (exists row,
     versions hist4 !! exSecondId = Some row /\
     f_revised_at row = Some 1500000999123 /\ f_revised_by row = Some "bob" /\
     f_created_at row = Some 1500000000123 /\ f_created_by row = Some "alice").
Proof.
  split; [| split].
  - destruct (proj1 provenance_set_by_submit exApp exCreate emptyStore
                (MkResp StatusOK ContentTypeValueJSON
                   (JsonBody (MkDoc (Some "auto-0") (Some "auto-0") None None None None
                                None None None (Some "alice") None None None
                                (Some "alice")))
                   (Some (MkArticle "auto-0" "auto-0" 0 "" "" "" [] "" None "alice"
                            None "" 0 "alice"))))
      as (row & Hrow & Hat & Hby); [vm_compute; reflexivity | reflexivity |].
    exists row. split; [exact Hrow | split; assumption].
  - destruct (proj2 provenance_set_by_submit exApp exSubmitFirst hist1
                (marshalArticle (stripped (submitVersion exSubmitFirst exBodyFirst))
                   StatusOK))
      as (bytes & row & Hbody & Hrow & Hcreate & _); [vm_compute; reflexivity | reflexivity |].
    injection Hbody as <-.
    exists row. split; [exact Hrow |]. apply Hcreate. reflexivity.
  - destruct (proj2 provenance_set_by_submit exApp exSubmitSecond hist3
                (marshalArticle (stripped (submitVersion exSubmitSecond exBodySecond))
                   StatusOK))
      as (bytes & row & Hbody & Hrow & _ & Hedit); [vm_compute; reflexivity | reflexivity |].
    injection Hbody as <-.
    exists row. split; [exact Hrow |]. apply Hedit. discriminate.
Defined.

(** C8 as the specification words it fails.  bob's draft comes from alice's
    first version, created at [ts1]; he submits it with a body that has no
    ["from_version"]: the answer is 200 and the new version of the article
    says it was created by bob at [ts2], with no [revised_at]. *)
Lemma createdAt_overwritten_counterexample :
  f_created_at <$> versions hist3 !! exFirstId = Some (Some 1500000000123) /\
  f_created_at <$> drafts hist3 !! "auto-0" = Some (Some 1500000000123) /\
  f_from_version <$> drafts hist3 !! "auto-0" = Some (Some ts1) /\
  (exists resp,
     outcome (run (submitArticle exApp exSubmitNoFrom) hist3) = Returned resp /\
     Status resp = StatusOK) /\
  f_created_at <$> versions (after (submitArticle exApp exSubmitNoFrom) hist3) !! exSecondId
  = Some (Some 1500000999123) /\
  f_created_by <$> versions (after (submitArticle exApp exSubmitNoFrom) hist3) !! exSecondId
  = Some (Some "bob") /\
  f_revised_at <$> versions (after (submitArticle exApp exSubmitNoFrom) hist3) !! exSecondId
  = Some None.
Proof.
  repeat split; try (vm_compute; reflexivity).
  eexists. split; vm_compute; reflexivity.
Qed.

End Provenance.

(** ** Edit *)

Section Edit.

(** X22.  Whatever store is behind the client: when the version is found,
    the create of the draft is answered "not created" and the reload of
    the draft is answered 404, [editArticle] panics on the nil article; it
    does not answer 409. *)
Theorem edit_race_any_store (app : AppRuntime) (r : Request)
    (answer : forall R, Call R -> R) (found : GetResult) :
  answer _ (GetDo VersionType (CtxKeyId r) fullSource) = Ok found ->
  Found found = true ->
  (forall id body, exists id',
     answer _ (IndexDo DraftType true id body) = Ok (MkIndexResponse id' false)) ->
  (forall id includes, answer _ (GetDo DraftType id includes) = Err errNotFound) ->
  outcome (runWith answer (editArticle app r))
  = Panicked "invalid memory address or nil pointer dereference".
Proof.
  intros Hget Hfound Hidx Hreload.
  unfold runWith, editArticle, getFullArticle, getArticle. cbn.
  rewrite Hget. cbn. rewrite Hfound. cbn.
  match goal with
  | |- context [answer _ (IndexDo DraftType true ?id ?body)] =>
      destruct (Hidx id body) as (id' & ->)
  end.
  cbn. rewrite Hreload. reflexivity.
Qed.

Lemma edit_race_any_store_witness :
  outcome (runWith raceAnswers (editArticle exApp exEditCarol))
  = Panicked "invalid memory address or nil pointer dereference".
Proof.
  apply (edit_race_any_store exApp exEditCarol raceAnswers
           (MkGetResult true exFirstId exBodyFirst));
    [reflexivity | reflexivity | intros id body; exists id; reflexivity
     | intros id includes; reflexivity].
Defined.

(** C4, where the code departs from it.  bob's draft of the article is
    there; carol asks to edit the first version, her create is refused, and
    before her reload another instance discards bob's draft.  The reload
    is answered 404, and the handler panics on the nil article instead of
    answering 409 with the guid. *)
Theorem edit_reload_race_panics :
  drafts hist3 !! "auto-0" <> None /\
  outcome (runAmong raceSchedule (editArticle exApp exEditCarol) hist3)
  = Panicked "invalid memory address or nil pointer dereference" /\
  steps (runAmong raceSchedule (editArticle exApp exEditCarol) hist3)
  = [SGet VersionType "auto-0:1500000000123456789"; SLock draftLock "auto-0";
     SIndex DraftType "auto-0"; SGet DraftType "auto-0"; SUnlock draftLock "auto-0"].
Proof.
  split; [vm_compute; discriminate |].
  split; vm_compute; reflexivity.
Qed.

End Edit.

(** ** Publish *)

Section Publish.

(** C3, where the code departs from it.  The second version of the
    article is published; then the first one is.  The first version has no
    note, no [revised_at], no [revised_by] and no [from_version], so these
    keys are not in the partial document that publish sends, and the
    Publish row keeps for them what the second version had put there: it
    is not the content of the version that was published. *)
Theorem publish_older_keeps_stale_fields :
  (exists v1,
     versions hist5 !! exFirstId = Some v1 /\
     f_note v1 = None /\ f_revised_at v1 = None /\ f_revised_by v1 = None /\
     f_from_version v1 = None /\ f_content v1 = Some "x" /\ f_locked_by v1 = None) /\
  (exists resp,
     outcome (run (publishArticle exApp exPublishFirst) hist5) = Returned resp /\
     Status resp = StatusOK) /\
  (exists row,
     publishes (after (publishArticle exApp exPublishFirst) hist5) !! "auto-0" = Some row /\
     f_id row = Some "auto-0" /\ f_version row = Some ts1 /\ f_content row = Some "x" /\
     f_note row = Some "second thoughts" /\ f_revised_at row = Some (ts2 / 10 ^ 6) /\
     f_revised_by row = Some "bob" /\ f_from_version row = Some ts1).
Proof.
  split; [| split].
  - eexists. split; [vm_compute; reflexivity |]. repeat split.
  - eexists. split; vm_compute; reflexivity.
  - eexists. split; [vm_compute; reflexivity |]. repeat split.
Qed.

End Publish.

(** ** JSON and the article record *)

Section Json.

Lemma default_omitString (s : string) : default "" (omitString s) = s.
Proof.
  unfold omitString. destruct (String.eqb_spec s ""); simpl; congruence.
Qed.

Lemma default_omitSlice (l : list string) : default [] (omitSlice l) = l.
Proof. destruct l; reflexivity. Qed.

Lemma time_round_trip (t : option JSONTime) :
  wholeMillis t -> UnmarshalJSON <$> (MarshalJSON <$> t) = t.
Proof.
  destruct t as [[t] |]; simpl; [| reflexivity].
  intros Ht. unfold UnmarshalJSON, MarshalJSON. simpl. do 2 f_equal.
  rewrite Z.mul_comm. symmetry. apply Z_div_exact_full_2; [| exact Ht].
  discriminate.
Qed.

(** X1.  What [json.Marshal] writes of an article, [json.Unmarshal] reads
    back as the same article: [omitempty] loses nothing, as long as the two
    times are whole milliseconds (the wire format has no more). *)
Theorem unmarshal_marshal (a : Article) :
  wholeMillis (CreatedAt a) -> wholeMillis (RevisedAt a) ->
  unmarshal (marshal a) = a.
Proof.
  intros Hc Hr. destruct a as [id g v h s c tg n ca cb ra rb fv lb].
  unfold unmarshal, marshal. cbn [f_id f_guid f_version f_headline f_summary f_content
    f_tag f_note f_created_at f_created_by f_revised_at f_revised_by f_from_version
    f_locked_by Id Guid Version Headline Summary Content Tag Note CreatedAt CreatedBy
    RevisedAt RevisedBy FromVersion LockedBy] in *.
  rewrite !default_omitString, !default_omitInt, default_omitSlice.
  rewrite (time_round_trip ca Hc), (time_round_trip ra Hr). reflexivity.
Qed.

Lemma unmarshal_marshal_witness :
  unmarshal (marshal (unmarshalArticle exBodySecond)) = unmarshalArticle exBodySecond.
Proof.
  apply unmarshal_marshal; vm_compute; reflexivity.
Defined.

Lemma nilIfZero_not_zero (t : option JSONTime) :
  nilIfZero t <> Some (MkJSONTime zeroTime).
Proof.
  destruct t as [[t] |]; simpl; [| discriminate].
  unfold IsZero. destruct (Z.eqb_spec t zeroTime) as [-> | Hne]; [discriminate |].
  intros [= E]. contradiction.
Qed.

(** X2.  The article that a handler reads from a request body never has
    the zero time as [CreatedAt] or [RevisedAt] (they are [nil] instead),
    and [NilZeroTimeFields] changes nothing else of what [json.Unmarshal]
    read. *)
Theorem unmarshalArticle_no_zero_time (d : Doc) :
  CreatedAt (unmarshalArticle d) <> Some (MkJSONTime zeroTime) /\
  RevisedAt (unmarshalArticle d) <> Some (MkJSONTime zeroTime) /\
  unmarshalArticle d
  = setRevisedAt (RevisedAt (unmarshalArticle d))
      (setCreatedAt (CreatedAt (unmarshalArticle d)) (unmarshal d)) /\
  NilZeroTimeFields (unmarshalArticle d) = unmarshalArticle d.
Proof.
  unfold unmarshalArticle, NilZeroTimeFields.
  cbn [CreatedAt RevisedAt setRevisedAt setCreatedAt].
  split; [apply nilIfZero_not_zero |].
  split; [apply nilIfZero_not_zero |].
  split; [reflexivity |].
  cbn [Id Guid Version Headline Summary Content Tag Note CreatedBy RevisedBy
       FromVersion LockedBy].
  assert (Hidem : forall t, nilIfZero (nilIfZero t) = nilIfZero t).
  { intros [[t] |]; simpl; [| reflexivity].
    destruct (IsZero t) eqn:E; simpl; [reflexivity | now rewrite E]. }
  now rewrite !Hidem.
Qed.

End Json.

(** ** Loading an article *)

Section Get.

(** X3.  Whatever the store answers, [getArticle] returns without panic
    and hands back either an article and no response, or no article and a
    response that is NotFound (404) or Internal (500); the article carries
    the id that the store gave, not an ["id"] key of the document. *)
Theorem getArticle_one_of (app : AppRuntime) (typ : IndexType) (id : string)
    (source : list string) (answer : forall R, Call R -> R) :
  (exists resp,
     answer _ (GetDo typ id source) = Ok resp /\ Found resp = true /\
     outcome (runWith answer (getArticle app typ id source))
     = Returned (Some (setId (GetId resp) (unmarshal (Source resp))), None)) \/
  (exists d,
     outcome (runWith answer (getArticle app typ id source)) = Returned (None, Some d) /\
     (Status d = StatusNotFound \/ Status d = StatusInternalServerError)).
Proof.
  unfold runWith, getArticle. cbn.
  destruct (answer _ (GetDo typ id source)) as [resp | err] eqn:Hans.
  - destruct (Found resp) eqn:Hf; cbn.
    + left. exists resp. repeat split. exact Hf.
    + right. eexists. split; [reflexivity | left; reflexivity].
  - destruct (IsNotFound err); cbn; right; eexists; split; try reflexivity.
    + left; reflexivity.
    + right; reflexivity.
Qed.

(** The three answers of the store model to a get, as [getArticle] passes
    them on. *)
Lemma run_getArticle_found {A : Type} (app : AppRuntime) (typ : IndexType) (id : string)
    (source : list string) (k : option Article * option HttpResponseData -> Prog A)
    (st : Store) (d : Doc) :
  id <> "" -> docs st typ !! id = Some d ->
  run (getArticle app typ id source ≫= k) st
  = logStep (SGet typ id) (run (k (Some (loaded id source d), None)) st).
Proof.
  intros Hid Hd. unfold getArticle, run. cbn. unfold esGet.
  rewrite (eqb_nonempty _ Hid), Hd. reflexivity.
Qed.

Lemma run_getArticle_absent {A : Type} (app : AppRuntime) (typ : IndexType) (id : string)
    (source : list string) (k : option Article * option HttpResponseData -> Prog A)
    (st : Store) :
  id <> "" -> docs st typ !! id = None ->
  run (getArticle app typ id source ≫= k) st
  = logStep (SGet typ id)
      (run (k (None, Some (CreateNotFoundRespData (notFoundIn app id typ)))) st).
Proof.
  intros Hid Hd. unfold getArticle, run. cbn. unfold esGet.
  rewrite (eqb_nonempty _ Hid), Hd. reflexivity.
Qed.

End Get.

(** ** Save and submit: the other answers *)

Section SaveSubmitMore.

Lemma run_save_json (app : AppRuntime) (r : Request) (st : Store) (bytes : Doc) :
  ReqBodyOf r = BodyJson bytes ->
  run (saveArticle app r) st
  = logStep (SLock draftLock (CtxKeyId r))
      (endStep (SUnlock draftLock (CtxKeyId r))
         (run
            (res ← call (UpdateScriptDo DraftType (CtxKeyId r) ESScriptSaveArticle
                           (saveParams true (unmarshalArticle bytes) (Username r)
                              (MkJSONTime (Now r))) true);
             match res with
             | Err err =>
                 if IsNotFound err then
                   mret (CreateNotFoundRespData
                           ("article " ++ CtxKeyId r ++ " not found!")%string)
                 else
                   mret (CreateInternalServerErrorRespData
                           ("failed to update article, error: " ++ ErrText err)%string)
             | Ok resp =>
                 if String.eqb (UpdResult resp) "noop" then
                   mret (CreateForbiddenRespData
                           "Update article locked by another user is not allowed!")
                 else if String.eqb (UpdResult resp) "updated" then
                   mret (CreateRespData StatusOK ContentTypeValueText (TextBody ""))
                 else
                   mret (CreateInternalServerErrorRespData
                           ("unknown result in update response: " ++ UpdResult resp)%string)
             end) st)).
Proof.
  intros Hbody. unfold saveArticle. rewrite Hbody. cbv zeta.
  now rewrite run_withLock.
Qed.

(** X4.  A save on an id that has no draft is answered NotFound (404) and
    leaves the store as it was. *)
Theorem save_absent_draft (app : AppRuntime) (r : Request) (st : Store) (bytes : Doc) :
  ReqBodyOf r = BodyJson bytes ->
  CtxKeyId r <> "" ->
  drafts st !! CtxKeyId r = None ->
  run (saveArticle app r) st
  = MkRan
      (Returned (CreateNotFoundRespData ("article " ++ CtxKeyId r ++ " not found!")%string))
      st
      [SLock draftLock (CtxKeyId r); SUpdate DraftType (CtxKeyId r);
       SUnlock draftLock (CtxKeyId r)].
Proof.
  intros Hbody Hid Hd. rewrite (run_save_json app r st bytes Hbody), run_call.
  cbn [esDo]. unfold esUpdateScript. rewrite (eqb_nonempty _ Hid). cbn [docs].
  rewrite Hd. reflexivity.
Qed.

Lemma save_absent_draft_witness :
  run (saveArticle exApp (MkRequest "nobody" "alice" (BodyJson exBodyNew) 2000)) exStore
  = MkRan (Returned (CreateNotFoundRespData "article nobody not found!")) exStore
      [SLock draftLock "nobody"; SUpdate DraftType "nobody"; SUnlock draftLock "nobody"].
Proof.
  apply (save_absent_draft exApp (MkRequest "nobody" "alice" (BodyJson exBodyNew) 2000)
           exStore exBodyNew); [reflexivity | discriminate | reflexivity].
Defined.

(** X5.  A save by the lock owner writes the five editorial keys of the
    body into the draft, also the empty ones, and nothing else: the other
    keys of the draft (its guid, version, provenance, [from_version] and
    [locked_by]) stay, and so do all other drafts, the versions and the
    published rows. *)
Theorem save_writes_five_keys (app : AppRuntime) (r : Request) (st : Store) (d bytes : Doc) :
  CtxKeyId r <> "" ->
  ReqBodyOf r = BodyJson bytes ->
  drafts st !! CtxKeyId r = Some d ->
  f_locked_by d = Some (Username r) ->
  final (run (saveArticle app r) st)
  = MkStore
      (<[CtxKeyId r :=
           MkDoc (f_id d) (f_guid d) (f_version d)
             (Some (default "" (f_headline bytes))) (Some (default "" (f_summary bytes)))
             (Some (default "" (f_content bytes))) (Some (default [] (f_tag bytes)))
             (Some (default "" (f_note bytes)))
             (f_created_at d) (f_created_by d) (f_revised_at d) (f_revised_by d)
             (f_from_version d) (f_locked_by d)]> (drafts st))
      (versions st) (publishes st) (autoSeq st).
Proof.
  intros Hid Hbody Hd Hlock. rewrite (run_save_json app r st bytes Hbody), run_call.
  cbn [esDo]. unfold esUpdateScript. rewrite (eqb_nonempty _ Hid). cbn [docs].
  rewrite Hd. unfold ESScriptSaveArticle.
  cbn [saveParams p_checkuser p_username andb].
  rewrite bool_decide_eq_true_2 by exact Hlock. reflexivity.
Qed.

Lemma save_writes_five_keys_witness :
  final (run (saveArticle exApp (MkRequest "A1" "alice" (BodyJson exBodyNew) 2000)) exStore)
  = MkStore
      {[ "A1" := MkDoc None (Some "A1") None (Some "h2") (Some "s2") (Some "y")
                   (Some ["t"]) (Some "n") None None None None None (Some "alice") ]}
      ∅ ∅ 0.
Proof.
  rewrite (save_writes_five_keys exApp (MkRequest "A1" "alice" (BodyJson exBodyNew) 2000)
             exStore exDraft exBodyNew);
    [vm_compute; reflexivity | discriminate | reflexivity | reflexivity | reflexivity].
Defined.

(** X6.  A submit on an id that has no draft is answered Internal (500),
    not NotFound, after the one refused update, and leaves the store as it
    was. *)
Theorem submit_absent_draft (app : AppRuntime) (r : Request) (st : Store) (bytes : Doc) :
  ReqBodyOf r = BodyJson bytes ->
  CtxKeyId r <> "" ->
  drafts st !! CtxKeyId r = None ->
  run (submitArticle app r) st
  = MkRan
      (Returned (CreateInternalServerErrorRespData
                   ("failed to save article draft " ++ CtxKeyId r ++ ", error: "
                      ++ ErrText errNotFound)%string))
      st
      [SLock draftLock (CtxKeyId r); SUpdate DraftType (CtxKeyId r);
       SUnlock draftLock (CtxKeyId r)].
Proof.
  intros Hbody Hid Hd.
  apply (submit_run_update_err app r st bytes errNotFound st Hbody).
  unfold esUpdateScript. rewrite (eqb_nonempty _ Hid). cbn [docs]. now rewrite Hd.
Qed.

Lemma submit_absent_draft_witness :
  exists resp,
    outcome (run (submitArticle exApp exSubmitFirst) emptyStore) = Returned resp /\
    Status resp = StatusInternalServerError /\
    final (run (submitArticle exApp exSubmitFirst) emptyStore) = emptyStore.
Proof.
  rewrite (submit_absent_draft exApp exSubmitFirst emptyStore exBodyFirst);
    [| reflexivity | discriminate | reflexivity].
  eexists. repeat split.
Defined.

(** X7.  Submit does not look at [locked_by]: whoever holds the draft, a
    submit on an existing draft, at an instant whose version id is free and
    with a body whose guid is the request id, answers 200, creates the
    version row from the body (with the body's guid) and deletes the draft;
    the other drafts and the other versions are untouched. *)
Theorem submit_succeeds (app : AppRuntime) (r : Request) (st : Store) (bytes d : Doc) :
  ReqBodyOf r = BodyJson bytes ->
  CtxKeyId r <> "" ->
  drafts st !! CtxKeyId r = Some d ->
  versions st !! versionId (CtxKeyId r) (UnixNano (Now r)) = None ->
  Guid (unmarshalArticle bytes) = CtxKeyId r ->
  run (submitArticle app r) st
  = MkRan
      (Returned (marshalArticle (stripped (submitVersion r bytes)) StatusOK))
      (MkStore (delete (CtxKeyId r) (drafts st))
         (<[versionId (CtxKeyId r) (UnixNano (Now r)) := marshal (submitVersion r bytes)]>
            (versions st))
         (publishes st) (autoSeq st))
      [SLock draftLock (CtxKeyId r); SUpdate DraftType (CtxKeyId r);
       SIndex VersionType (versionId (CtxKeyId r) (UnixNano (Now r)));
       SDelete DraftType (CtxKeyId r); SUnlock draftLock (CtxKeyId r)].
Proof.
  intros Hbody Hid Hd Hv Hg.
  rewrite <- (submitVersion_Id r bytes) in Hv |- *.
  rewrite (submit_run_ok app r st bytes d (submitDraft r bytes d) Hbody Hid Hd Hv).
  - rewrite Hg, delete_insert_eq. reflexivity.
  - now rewrite Hg.
  - rewrite Hg. apply lookup_insert_eq.
Qed.

Lemma submit_succeeds_witness :
  outcome (run (submitArticle exApp exSubmitCarol) hist3)
  = Returned (marshalArticle (stripped (submitVersion exSubmitCarol exBodySecond)) StatusOK) /\
  f_locked_by <$> drafts hist3 !! "auto-0" = Some (Some "bob") /\
  drafts (final (run (submitArticle exApp exSubmitCarol) hist3)) !! "auto-0" = None.
Proof.
  rewrite (submit_succeeds exApp exSubmitCarol hist3 exBodySecond
             (default emptyDoc (drafts hist3 !! "auto-0")));
    [| reflexivity | discriminate | vm_compute; reflexivity | vm_compute; reflexivity
     | reflexivity].
  split; [reflexivity |]. split; [vm_compute; reflexivity |].
  cbn [final drafts]. apply lookup_delete_eq.
Defined.

(** X8.  After any submit that answered 200, the draft that is gone is the
    one under the guid of the request body; when that guid is not the
    request id, the draft of the request is still there, as the update
    wrote it. *)
Theorem submit_ok_removes_guid_of_body (app : AppRuntime) (r : Request) (st : Store)
    (resp : HttpResponseData) :
  outcome (run (submitArticle app r) st) = Returned resp ->
  Status resp = StatusOK ->
  exists bytes d,
    ReqBodyOf r = BodyJson bytes /\
    drafts st !! CtxKeyId r = Some d /\
    drafts (final (run (submitArticle app r) st)) !! Guid (unmarshalArticle bytes) = None /\
    (Guid (unmarshalArticle bytes) <> CtxKeyId r ->
     drafts (final (run (submitArticle app r) st)) !! CtxKeyId r
     = Some (submitDraft r bytes d)).
Proof.
  intros Hout Hok.
  destruct (submit_ok_drafts app r st resp Hout Hok)
    as (bytes & d & Hbody & Hd & _ & Hdrafts & _).
  exists bytes, d. rewrite Hdrafts.
  split; [exact Hbody |]. split; [exact Hd |].
  split; [apply lookup_delete_eq |].
  intros Hne. rewrite lookup_delete_ne by exact Hne. apply lookup_insert_eq.
Qed.

Lemma submit_ok_removes_guid_of_body_witness :
  exists bytes d,
    ReqBodyOf exSubmitOtherGuid = BodyJson bytes /\
    drafts twoDrafts !! "auto-0" = Some d /\
    drafts (final (run (submitArticle exApp exSubmitOtherGuid) twoDrafts)) !! "auto-1" = None /\
    drafts (final (run (submitArticle exApp exSubmitOtherGuid) twoDrafts)) !! "auto-0"
    = Some (submitDraft exSubmitOtherGuid bytes d).
Proof.
  destruct (submit_ok_removes_guid_of_body exApp exSubmitOtherGuid twoDrafts
              (marshalArticle (stripped (submitVersion exSubmitOtherGuid exBodyOtherGuid))
                 StatusOK))
    as (bytes & d & Hbody & Hd & Hgone & Hkept); [vm_compute; reflexivity | reflexivity |].
  injection Hbody as <-.
  exists exBodyOtherGuid, d. split; [reflexivity |]. split; [exact Hd |].
  split; [exact Hgone | apply Hkept; discriminate].
Defined.

(** X9.  A submit whose body names no guid creates the version and then
    fails on the delete: the answer is Internal (500), the new version is
    in the store and the draft is still there. *)
Theorem submit_body_without_guid (app : AppRuntime) (r : Request) (st : Store)
    (bytes d : Doc) :
  ReqBodyOf r = BodyJson bytes ->
  CtxKeyId r <> "" ->
  drafts st !! CtxKeyId r = Some d ->
  versions st !! versionId (CtxKeyId r) (UnixNano (Now r)) = None ->
  Guid (unmarshalArticle bytes) = "" ->
  run (submitArticle app r) st
  = MkRan
      (Returned (CreateInternalServerErrorRespData
                   ("failed to delete article draft, error: " ++ ErrText errMissingId)%string))
      (MkStore (<[CtxKeyId r := submitDraft r bytes d]> (drafts st))
         (<[versionId (CtxKeyId r) (UnixNano (Now r)) := marshal (submitVersion r bytes)]>
            (versions st))
         (publishes st) (autoSeq st))
      [SLock draftLock (CtxKeyId r); SUpdate DraftType (CtxKeyId r);
       SIndex VersionType (versionId (CtxKeyId r) (UnixNano (Now r)));
       SDelete DraftType ""; SUnlock draftLock (CtxKeyId r)].
Proof.
  intros Hbody Hid Hd Hv Hg.
  rewrite <- (submitVersion_Id r bytes) in Hv |- *.
  rewrite (submit_run_delete_err app r st bytes d errMissingId
             (setDocs VersionType
                (<[Id (submitVersion r bytes) := marshal (submitVersion r bytes)]>
                   (versions st))
                (setDocs DraftType (<[CtxKeyId r := submitDraft r bytes d]> (drafts st)) st))
             Hbody Hid Hd Hv).
  - rewrite Hg. reflexivity.
  - rewrite Hg. reflexivity.
Qed.

Lemma submit_body_without_guid_witness :
  exists resp,
    outcome (run (submitArticle exApp exSubmitNoGuid) hist3) = Returned resp /\
    Status resp = StatusInternalServerError /\
    versions (final (run (submitArticle exApp exSubmitNoGuid) hist3)) !! exSecondId <> None /\
    drafts (final (run (submitArticle exApp exSubmitNoGuid) hist3)) !! "auto-0" <> None.
Proof.
  rewrite (submit_body_without_guid exApp exSubmitNoGuid hist3 exBodyNoGuid
             (default emptyDoc (drafts hist3 !! "auto-0")));
    [| reflexivity | discriminate | vm_compute; reflexivity | vm_compute; reflexivity
     | reflexivity].
  eexists. split; [reflexivity |]. split; [reflexivity |].
  cbn [final versions drafts].
  split.
  - change exSecondId with (versionId (CtxKeyId exSubmitNoGuid) (UnixNano (Now exSubmitNoGuid))).
    rewrite lookup_insert_eq. discriminate.
  - change "auto-0" with (CtxKeyId exSubmitNoGuid) at 2.
    rewrite lookup_insert_eq. discriminate.
Defined.

End SaveSubmitMore.

(** ** Discard and unpublish *)

Section Delete.

(** X10.  Discard does not look at who holds the draft: on an existing
    draft it answers 200 and the draft is gone, nothing else of the store
    being touched; on an id without draft it answers NotFound (404) and
    the store is as it was. *)
Theorem discard_draft (app : AppRuntime) (r : Request) (st : Store) :
  CtxKeyId r <> "" ->
  run (discardArticle app r) st
  = match drafts st !! CtxKeyId r with
    | Some _ =>
        MkRan (Returned (CreateRespData StatusOK ContentTypeValueText (TextBody "")))
          (MkStore (delete (CtxKeyId r) (drafts st)) (versions st) (publishes st) (autoSeq st))
          [SLock draftLock (CtxKeyId r); SDelete DraftType (CtxKeyId r);
           SUnlock draftLock (CtxKeyId r)]
    | None =>
        MkRan
          (Returned (CreateNotFoundRespData
                       ("article " ++ CtxKeyId r ++ " not found!")%string))
          st
          [SLock draftLock (CtxKeyId r); SDelete DraftType (CtxKeyId r);
           SUnlock draftLock (CtxKeyId r)]
    end.
Proof.
  intros Hid. unfold discardArticle. cbv zeta.
  rewrite run_withLock, run_call. cbn [esDo]. unfold esDelete.
  rewrite (eqb_nonempty _ Hid). cbn [docs].
  destruct (drafts st !! CtxKeyId r); reflexivity.
Qed.

Lemma discard_draft_witness :
  outcome (run (discardArticle exApp exDiscardBob) hist3)
  = Returned (CreateRespData StatusOK ContentTypeValueText (TextBody "")) /\
  drafts (final (run (discardArticle exApp exDiscardBob) hist3)) !! "auto-0" = None /\
  outcome (run (discardArticle exApp exDiscardBob) hist2)
  = Returned (CreateNotFoundRespData "article auto-0 not found!").
Proof.
  rewrite !(discard_draft exApp exDiscardBob) by discriminate.
  split; [vm_compute; reflexivity |]. split; vm_compute; reflexivity.
Defined.

(** X11.  Unpublish on a published guid answers 200 and the Publish row is
    gone, drafts and versions being untouched; on a guid that is not
    published it answers NotFound (404), not Internal, and the store is as
    it was. *)
Theorem unpublish_row (app : AppRuntime) (r : Request) (st : Store) :
  CtxKeyId r <> "" ->
  run (unpublishArticle app r) st
  = match publishes st !! CtxKeyId r with
    | Some _ =>
        MkRan (Returned (CreateRespData StatusOK ContentTypeValueText (TextBody "")))
          (MkStore (drafts st) (versions st) (delete (CtxKeyId r) (publishes st)) (autoSeq st))
          [SLock publishLock (CtxKeyId r); SDelete PublishType (CtxKeyId r);
           SUnlock publishLock (CtxKeyId r)]
    | None =>
        MkRan
          (Returned (CreateNotFoundRespData
                       ("article " ++ CtxKeyId r ++ " not found!")%string))
          st
          [SLock publishLock (CtxKeyId r); SDelete PublishType (CtxKeyId r);
           SUnlock publishLock (CtxKeyId r)]
    end.
Proof.
  intros Hid. unfold unpublishArticle. cbv zeta.
  rewrite run_withLock, run_call. cbn [esDo]. unfold esDelete.
  rewrite (eqb_nonempty _ Hid). cbn [docs].
  destruct (publishes st !! CtxKeyId r); reflexivity.
Qed.

Lemma unpublish_row_witness :
  outcome (run (unpublishArticle exApp exDiscardBob) hist5)
  = Returned (CreateRespData StatusOK ContentTypeValueText (TextBody "")) /\
  outcome (run (unpublishArticle exApp exDiscardBob)
             (final (run (unpublishArticle exApp exDiscardBob) hist5)))
  = Returned (CreateNotFoundRespData "article auto-0 not found!").
Proof.
  rewrite !(unpublish_row exApp exDiscardBob) by discriminate.
  split; vm_compute; reflexivity.
Defined.

End Delete.

(** ** Edit: the answers of a store that is not raced *)

Section EditRuns.

Lemma loaded_Guid (id : string) (d : Doc) :
  Guid (loaded id fullSource d) = default "" (f_guid d).
Proof. reflexivity. Qed.

Lemma editDraft_Guid (user : string) (a : Article) : Guid (editDraft user a) = Guid a.
Proof. reflexivity. Qed.

(** The run of [editArticle] once the version is loaded. *)
Lemma edit_run_loaded (app : AppRuntime) (r : Request) (st : Store) (v : Doc) :
  CtxKeyId r <> "" ->
  versions st !! CtxKeyId r = Some v ->
  run (editArticle app r) st
  = logStep (SGet VersionType (CtxKeyId r))
      (logStep (SLock draftLock (default "" (f_guid v)))
         (endStep (SUnlock draftLock (default "" (f_guid v)))
            (run
               (res ← call (IndexDo DraftType true (default "" (f_guid v))
                              (editDraft (Username r) (loaded (CtxKeyId r) fullSource v)));
                match res with
                | Err err =>
                    mret (CreateInternalServerErrorRespData
                            ("error querying elasticsearch, error: " ++ ErrText err)%string)
                | Ok resp =>
                    if negb (Created resp) then
                      '(article, d) ← getArticle app DraftType (default "" (f_guid v))
                                        ["guid"; "version"; "from_version"; "locked_by"];
                      match d with
                      | Some d =>
                          if Status d =? StatusNotFound then
                            a' ← deref article;
                            mret (marshalArticle (setGuid (Guid a') emptyArticle)
                                    StatusConflict)
                          else mret d
                      | None =>
                          a' ← deref article;
                          mret (marshalArticle a' StatusConflict)
                      end
                    else
                      mret (marshalArticle
                              (editDraft (Username r) (loaded (CtxKeyId r) fullSource v))
                              StatusOK)
                end) st))).
Proof.
  intros Hid Hv. unfold editArticle, getFullArticle. cbv zeta.
  rewrite (run_getArticle_found app VersionType (CtxKeyId r) fullSource _ st v Hid Hv).
  cbv beta iota. f_equal.
  apply (run_withLock draftLock (default "" (f_guid v))).
Qed.

(** X12.  An edit of a version that is not in the store is answered
    NotFound (404) after the one get: no lock is taken, nothing is
    written. *)
Theorem edit_missing_version (app : AppRuntime) (r : Request) (st : Store) :
  CtxKeyId r <> "" ->
  versions st !! CtxKeyId r = None ->
  run (editArticle app r) st
  = MkRan (Returned (CreateNotFoundRespData (notFoundIn app (CtxKeyId r) VersionType)))
      st [SGet VersionType (CtxKeyId r)].
Proof.
  intros Hid Hv. unfold editArticle, getFullArticle. cbv zeta.
  rewrite (run_getArticle_absent app VersionType (CtxKeyId r) fullSource _ st Hid Hv).
  reflexivity.
Qed.

Lemma edit_missing_version_witness :
  run (editArticle exApp exEdit) hist1
  = MkRan (Returned (CreateNotFoundRespData (notFoundIn exApp exFirstId VersionType)))
      hist1 [SGet VersionType exFirstId].
Proof.
  apply (edit_missing_version exApp exEdit hist1); [discriminate | vm_compute; reflexivity].
Defined.

(** X13.  An edit of a stored version whose guid has no draft answers 200
    with the new draft and stores it under the guid: the content and the
    [created_at]/[created_by] of the version, [from_version] = the version
    number, version 0, no [revised_at], and the editor as [revised_by] and
    [locked_by].  Versions and published rows are untouched. *)
Theorem edit_creates_draft (app : AppRuntime) (r : Request) (st : Store) (v : Doc)
    (g : string) :
  CtxKeyId r <> "" ->
  versions st !! CtxKeyId r = Some v ->
  f_guid v = Some g -> g <> "" ->
  drafts st !! g = None ->
  run (editArticle app r) st
  = MkRan
      (Returned (marshalArticle (editDraft (Username r) (loaded (CtxKeyId r) fullSource v))
                   StatusOK))
      (MkStore
         (<[g := marshal (editDraft (Username r) (loaded (CtxKeyId r) fullSource v))]>
            (drafts st))
         (versions st) (publishes st) (autoSeq st))
      [SGet VersionType (CtxKeyId r); SLock draftLock g; SIndex DraftType g;
       SUnlock draftLock g].
Proof.
  intros Hid Hv Hg Hgne Hd.
  rewrite (edit_run_loaded app r st v Hid Hv), Hg. cbn [default id].
  rewrite run_call. cbn [esDo]. rewrite (esIndex_create _ _ _ _ (eqb_nonempty _ Hgne)).
  cbn [docs]. rewrite Hd. reflexivity.
Qed.

Lemma edit_creates_draft_witness :
  outcome (run (editArticle exApp exEdit) hist2)
  = Returned (marshalArticle
                (editDraft "bob"
                   (loaded exFirstId fullSource (default emptyDoc (versions hist2 !! exFirstId))))
                StatusOK) /\
  (exists row,
     drafts (final (run (editArticle exApp exEdit) hist2)) !! "auto-0" = Some row /\
     f_from_version row = Some ts1 /\ f_version row = None /\
     f_locked_by row = Some "bob" /\ f_revised_by row = Some "bob" /\
     f_revised_at row = None /\ f_created_by row = Some "alice" /\
     f_content row = Some "x").
Proof.
  rewrite (edit_creates_draft exApp exEdit hist2
             (default emptyDoc (versions hist2 !! exFirstId)) "auto-0");
    [| discriminate | vm_compute; reflexivity | vm_compute; reflexivity | discriminate
     | vm_compute; reflexivity].
  split; [reflexivity |].
  eexists. split; [cbn [final drafts]; apply lookup_insert_eq |].
  vm_compute. repeat split.
Defined.

(** X14.  An edit of a stored version whose guid already has a draft
    answers Conflict (409) with the identity of that draft, namely its
    guid, version, [from_version] and [locked_by] (and the guid as id),
    and writes nothing. *)
Theorem edit_conflict (app : AppRuntime) (r : Request) (st : Store) (v dr : Doc)
    (g : string) :
  CtxKeyId r <> "" ->
  versions st !! CtxKeyId r = Some v ->
  f_guid v = Some g -> g <> "" ->
  drafts st !! g = Some dr ->
  run (editArticle app r) st
  = MkRan
      (Returned (marshalArticle
                   (loaded g ["guid"; "version"; "from_version"; "locked_by"] dr)
                   StatusConflict))
      st
      [SGet VersionType (CtxKeyId r); SLock draftLock g; SIndex DraftType g;
       SGet DraftType g; SUnlock draftLock g].
Proof.
  intros Hid Hv Hg Hgne Hd.
  rewrite (edit_run_loaded app r st v Hid Hv), Hg. cbn [default id].
  rewrite run_call. cbn [esDo]. rewrite (esIndex_create _ _ _ _ (eqb_nonempty _ Hgne)).
  cbn [docs]. rewrite Hd. cbn [fst snd Created negb].
  rewrite (run_getArticle_found app DraftType g _ _ st dr Hgne Hd).
  reflexivity.
Qed.

Lemma edit_conflict_witness :
  exists resp p,
    outcome (run (editArticle exApp exEditCarol) hist3) = Returned resp /\
    Status resp = StatusConflict /\ Body resp = JsonBody p /\
    f_id p = Some "auto-0" /\ f_guid p = Some "auto-0" /\ f_version p = None /\
    f_from_version p = Some ts1 /\ f_locked_by p = Some "bob" /\ f_content p = None /\
    final (run (editArticle exApp exEditCarol) hist3) = hist3.
Proof.
  rewrite (edit_conflict exApp exEditCarol hist3
             (default emptyDoc (versions hist3 !! exFirstId))
             (default emptyDoc (drafts hist3 !! "auto-0")) "auto-0");
    [| discriminate | vm_compute; reflexivity | vm_compute; reflexivity | discriminate
     | vm_compute; reflexivity].
  eexists _, _. split; [reflexivity |]. split; [reflexivity |].
  split; [reflexivity |]. vm_compute. repeat split.
Defined.

(** X15.  An edit that created a draft, followed by the discard of that
    draft, leaves the store exactly as it was before the edit; so the same
    edit can be made again. *)
Theorem edit_then_discard (app : AppRuntime) (r rd : Request) (st : Store) (v : Doc)
    (g : string) :
  CtxKeyId r <> "" ->
  versions st !! CtxKeyId r = Some v ->
  f_guid v = Some g -> g <> "" ->
  drafts st !! g = None ->
  CtxKeyId rd = g ->
  outcome (run (discardArticle app rd) (final (run (editArticle app r) st)))
  = Returned (CreateRespData StatusOK ContentTypeValueText (TextBody "")) /\
  final (run (discardArticle app rd) (final (run (editArticle app r) st))) = st.
Proof.
  intros Hid Hv Hg Hgne Hd Hrd.
  assert (Hedit := edit_run_loaded app r st v Hid Hv).
  rewrite Hg in Hedit. cbn [default id] in Hedit.
  rewrite run_call in Hedit. cbn [esDo] in Hedit.
  rewrite (esIndex_create _ _ _ _ (eqb_nonempty _ Hgne)) in Hedit.
  cbn [docs] in Hedit. rewrite Hd in Hedit.
  rewrite Hedit. clear Hedit.
  cbn [fst snd Created negb]. rewrite run_ret. cbn [final logStep endStep setDocs].
  unfold discardArticle. cbv zeta. rewrite Hrd, run_withLock, run_call.
  cbn [esDo]. unfold esDelete. rewrite (eqb_nonempty _ Hgne).
  cbn [docs drafts]. rewrite lookup_insert_eq.
  cbn [fst snd]. rewrite run_ret. cbn [outcome final logStep endStep setDocs drafts
    versions publishes autoSeq].
  split; [reflexivity |].
  rewrite delete_insert_eq, delete_id by exact Hd. destruct st; reflexivity.
Qed.

Lemma edit_then_discard_witness :
  outcome (run (discardArticle exApp exDiscardBob) (final (run (editArticle exApp exEdit) hist2)))
  = Returned (CreateRespData StatusOK ContentTypeValueText (TextBody "")) /\
  final (run (discardArticle exApp exDiscardBob) (final (run (editArticle exApp exEdit) hist2)))
  = hist2.
Proof.
  apply (edit_then_discard exApp exEdit exDiscardBob hist2
           (default emptyDoc (versions hist2 !! exFirstId)) "auto-0");
    [discriminate | vm_compute; reflexivity | vm_compute; reflexivity | discriminate
     | vm_compute; reflexivity | reflexivity].
Defined.

End EditRuns.

(** ** Publish: the row that is written *)

Section PublishRuns.

Lemma orElse_same {A : Type} (n o : option A) : orElse n (orElse n o) = orElse n o.
Proof. destruct n; reflexivity. Qed.

Lemma orElse_refl {A : Type} (n : option A) : orElse n n = n.
Proof. destruct n; reflexivity. Qed.

Lemma mergeDoc_again (old new : Doc) : mergeDoc (mergeDoc old new) new = mergeDoc old new.
Proof.
  unfold mergeDoc. cbn [f_id f_guid f_version f_headline f_summary f_content f_tag f_note
    f_created_at f_created_by f_revised_at f_revised_by f_from_version f_locked_by].
  now rewrite !orElse_same.
Qed.

Lemma mergeDoc_self (d : Doc) : mergeDoc d d = d.
Proof.
  destruct d. unfold mergeDoc. cbn [f_id f_guid f_version f_headline f_summary f_content
    f_tag f_note f_created_at f_created_by f_revised_at f_revised_by f_from_version
    f_locked_by].
  now rewrite !orElse_refl.
Qed.

Lemma publishRow_again (old : option Doc) (pa : Article) :
  mergeDoc (publishRow old pa) (marshal pa) = publishRow old pa.
Proof.
  destruct old as [row |]; simpl; [apply mergeDoc_again | apply mergeDoc_self].
Qed.

(** The answer of the store model to the upsert of publish: in every case
    the row under the guid is [publishRow]. *)
Lemma esUpdateDoc_upsert (st : Store) (g : string) (pa : Article) :
  g <> "" ->
  exists res,
    esUpdateDoc st PublishType g pa true
    = (Ok res,
       MkStore (drafts st) (versions st)
         (<[g := publishRow (publishes st !! g) pa]> (publishes st)) (autoSeq st)).
Proof.
  intros Hg. unfold esUpdateDoc. rewrite (eqb_nonempty _ Hg). cbn [docs].
  destruct (publishes st !! g) as [row |] eqn:Hrow; cbn [publishRow].
  - destruct (bool_decide_reflect (mergeDoc row (marshal pa) = row)) as [E | _].
    + eexists. f_equal. rewrite E, insert_id by exact Hrow. destruct st; reflexivity.
    + eexists. reflexivity.
  - eexists. reflexivity.
Qed.

Lemma publish_run_loaded (app : AppRuntime) (r : Request) (st : Store) (v : Doc) :
  CtxKeyId r <> "" ->
  versions st !! CtxKeyId r = Some v ->
  run (publishArticle app r) st
  = logStep (SGet VersionType (CtxKeyId r))
      (logStep (SLock publishLock (default "" (f_guid v)))
         (endStep (SUnlock publishLock (default "" (f_guid v)))
            (run
               (res ← call (UpdateDocDo PublishType (default "" (f_guid v))
                              (publishedArticle (loaded (CtxKeyId r) fullSource v)) true);
                match res with
                | Err err =>
                    mret (CreateInternalServerErrorRespData
                            ("failed to publish article, error: " ++ ErrText err)%string)
                | Ok _ => mret (CreateRespData StatusOK ContentTypeValueText (TextBody ""))
                end) st))).
Proof.
  intros Hid Hv. unfold publishArticle, getFullArticle. cbv zeta.
  rewrite (run_getArticle_found app VersionType (CtxKeyId r) fullSource _ st v Hid Hv).
  cbv beta iota. f_equal.
  apply (run_withLock publishLock (default "" (f_guid v))).
Qed.

(** X16.  A publish of a version that is not in the store is answered
    NotFound (404) after the one get: no lock is taken and nothing is
    written. *)
Theorem publish_missing_version (app : AppRuntime) (r : Request) (st : Store) :
  CtxKeyId r <> "" ->
  versions st !! CtxKeyId r = None ->
  run (publishArticle app r) st
  = MkRan (Returned (CreateNotFoundRespData (notFoundIn app (CtxKeyId r) VersionType)))
      st [SGet VersionType (CtxKeyId r)].
Proof.
  intros Hid Hv. unfold publishArticle, getFullArticle. cbv zeta.
  rewrite (run_getArticle_absent app VersionType (CtxKeyId r) fullSource _ st Hid Hv).
  reflexivity.
Qed.

Lemma publish_missing_version_witness :
  run (publishArticle exApp exPublishSecond) hist3
  = MkRan (Returned (CreateNotFoundRespData (notFoundIn exApp exSecondId VersionType)))
      hist3 [SGet VersionType exSecondId].
Proof.
  apply (publish_missing_version exApp exPublishSecond hist3);
    [discriminate | vm_compute; reflexivity].
Defined.

(** The run of a publish of a stored version with a guid. *)
Lemma publish_run (app : AppRuntime) (r : Request) (st : Store) (v : Doc) (g : string) :
  CtxKeyId r <> "" ->
  versions st !! CtxKeyId r = Some v ->
  f_guid v = Some g -> g <> "" ->
  run (publishArticle app r) st
  = MkRan (Returned (CreateRespData StatusOK ContentTypeValueText (TextBody "")))
      (MkStore (drafts st) (versions st)
         (<[g := publishRow (publishes st !! g)
                   (publishedArticle (loaded (CtxKeyId r) fullSource v))]> (publishes st))
         (autoSeq st))
      [SGet VersionType (CtxKeyId r); SLock publishLock g; SUpdate PublishType g;
       SUnlock publishLock g].
Proof.
  intros Hid Hv Hg Hgne.
  rewrite (publish_run_loaded app r st v Hid Hv), Hg. cbn [default id].
  rewrite run_call. cbn [esDo].
  destruct (esUpdateDoc_upsert st g (publishedArticle (loaded (CtxKeyId r) fullSource v))
              Hgne) as (res & ->).
  reflexivity.
Qed.

(** X17.  A publish of a stored version answers 200 and touches one row
    only, the Publish row under the guid of the version: drafts, versions
    and the other Publish rows are as before.  The row is the JSON of the
    version (id = guid, no [locked_by]) when no row was there, and
    otherwise the old row with the keys of that JSON written over it. *)
Theorem publish_writes_one_row (app : AppRuntime) (r : Request) (st : Store) (v : Doc)
    (g : string) :
  CtxKeyId r <> "" ->
  versions st !! CtxKeyId r = Some v ->
  f_guid v = Some g -> g <> "" ->
  outcome (run (publishArticle app r) st)
  = Returned (CreateRespData StatusOK ContentTypeValueText (TextBody "")) /\
  drafts (final (run (publishArticle app r) st)) = drafts st /\
  versions (final (run (publishArticle app r) st)) = versions st /\
  publishes (final (run (publishArticle app r) st)) !! g
  = Some (publishRow (publishes st !! g)
            (publishedArticle (loaded (CtxKeyId r) fullSource v))) /\
  (forall g', g' <> g ->
     publishes (final (run (publishArticle app r) st)) !! g' = publishes st !! g').
Proof.
  intros Hid Hv Hg Hgne. rewrite (publish_run app r st v g Hid Hv Hg Hgne).
  cbn [outcome final drafts versions publishes].
  repeat split.
  - apply lookup_insert_eq.
  - intros g' Hne. now apply lookup_insert_ne.
Qed.

Lemma publish_writes_one_row_witness :
  outcome (run (publishArticle exApp exPublishSecond) hist4)
  = Returned (CreateRespData StatusOK ContentTypeValueText (TextBody "")) /\
  drafts hist5 = drafts hist4 /\ versions hist5 = versions hist4 /\
  f_id <$> publishes hist5 !! "auto-0" = Some (Some "auto-0") /\
  f_note <$> publishes hist5 !! "auto-0" = Some (Some "second thoughts").
Proof.
  destruct (publish_writes_one_row exApp exPublishSecond hist4
              (default emptyDoc (versions hist4 !! exSecondId)) "auto-0")
    as (Hout & Hd & Hv & Hrow & _);
    [discriminate | vm_compute; reflexivity | vm_compute; reflexivity | discriminate |].
  split; [exact Hout |]. split; [exact Hd |]. split; [exact Hv |].
  unfold hist5, after. rewrite Hrow. split; vm_compute; reflexivity.
Defined.

(** X18.  Publish is idempotent: publishing the same version a second
    time answers 200 again and leaves the store exactly as the first
    publish left it. *)
Theorem publish_twice (app : AppRuntime) (r : Request) (st : Store) (v : Doc) (g : string) :
  CtxKeyId r <> "" ->
  versions st !! CtxKeyId r = Some v ->
  f_guid v = Some g -> g <> "" ->
  outcome (run (publishArticle app r) (final (run (publishArticle app r) st)))
  = Returned (CreateRespData StatusOK ContentTypeValueText (TextBody "")) /\
  final (run (publishArticle app r) (final (run (publishArticle app r) st)))
  = final (run (publishArticle app r) st).
Proof.
  intros Hid Hv Hg Hgne.
  rewrite (publish_run app r st v g Hid Hv Hg Hgne). cbn [final].
  match goal with
  | |- context [run (publishArticle app r) ?st1] =>
      rewrite (publish_run app r st1 v g Hid Hv Hg Hgne)
  end.
  cbn [outcome final drafts versions publishes autoSeq].
  split; [reflexivity |].
  rewrite lookup_insert_eq. cbn [publishRow].
  rewrite publishRow_again, insert_insert_eq. reflexivity.
Qed.

Lemma publish_twice_witness :
  outcome (run (publishArticle exApp exPublishSecond) hist5)
  = Returned (CreateRespData StatusOK ContentTypeValueText (TextBody "")) /\
  final (run (publishArticle exApp exPublishSecond) hist5) = hist5.
Proof.
  apply (publish_twice exApp exPublishSecond hist4
           (default emptyDoc (versions hist4 !! exSecondId)) "auto-0");
    [discriminate | vm_compute; reflexivity | vm_compute; reflexivity | discriminate].
Defined.

Lemma marshal_time_again (t : option JSONTime) :
  MarshalJSON <$> (UnmarshalJSON <$> (MarshalJSON <$> t)) = MarshalJSON <$> t.
Proof.
  destruct t as [[t] |]; simpl; [| reflexivity].
  unfold MarshalJSON, UnmarshalJSON. simpl. f_equal. apply Z.div_mul. discriminate.
Qed.

Lemma marshal_published_loaded (id : string) (art : Article) :
  marshal (publishedArticle (loaded id fullSource (marshal art)))
  = marshal (setLockedBy "" (setId (Guid art) art)).
Proof.
  destruct art as [i g v h s c tg n ca cb ra rb fv lb].
  unfold publishedArticle, loaded, marshal, unmarshal, filterSource.
  cbn [included existsb String.eqb Ascii.eqb Bool.eqb orb fullSource
       f_id f_guid f_version f_headline f_summary f_content f_tag f_note f_created_at
       f_created_by f_revised_at f_revised_by f_from_version f_locked_by
       Id Guid Version Headline Summary Content Tag Note CreatedAt CreatedBy RevisedAt
       RevisedBy FromVersion LockedBy setId setLockedBy].
  rewrite !default_omitString, !default_omitInt, default_omitSlice, !marshal_time_again.
  reflexivity.
Qed.

(** X19.  When the guid has no Publish row yet, publishing a version that
    was stored as the JSON of an article gives a Publish row that is this
    same JSON with the guid as id and without [locked_by]: every other
    key of the version is carried over as it is. *)
Theorem publish_fresh_copies_version (app : AppRuntime) (r : Request) (st : Store)
    (art : Article) :
  CtxKeyId r <> "" ->
  versions st !! CtxKeyId r = Some (marshal art) ->
  Guid art <> "" ->
  publishes st !! Guid art = None ->
  publishes (final (run (publishArticle app r) st)) !! Guid art
  = Some (marshal (setLockedBy "" (setId (Guid art) art))).
Proof.
  intros Hid Hv Hg Hfree.
  assert (Hguid : f_guid (marshal art) = Some (Guid art))
    by (apply omitString_nonempty, eqb_nonempty, Hg).
  rewrite (publish_run app r st (marshal art) (Guid art) Hid Hv Hguid Hg).
  cbn [final publishes]. rewrite lookup_insert_eq, Hfree. cbn [publishRow].
  now rewrite marshal_published_loaded.
Qed.

Lemma publish_fresh_copies_version_witness :
  publishes hist5 !! "auto-0"
  = Some (marshal (setLockedBy "" (setId "auto-0" (submitVersion exSubmitSecond exBodySecond)))).
Proof.
  apply (publish_fresh_copies_version exApp exPublishSecond hist4
           (submitVersion exSubmitSecond exBodySecond));
    [discriminate | vm_compute; reflexivity | discriminate | vm_compute; reflexivity].
Defined.

End PublishRuns.

(** ** What no handler does *)

Section Invariants.

Lemma keepsVersions_bind {A B : Type} (m : Prog A) (f : A -> Prog B) :
  keepsVersions m -> (forall a, keepsVersions (f a)) -> keepsVersions (bind m f).
Proof.
  intros Hm Hf. induction m as [a | msg | R c k IH]; simpl in *; [apply Hf | exact I |].
  destruct Hm as [Hc Hk]. split; [exact Hc |]. intros r. apply IH, Hk.
Qed.

Lemma keepsVersions_defer {A : Type} (c : Call unit) (body : Prog A) :
  keepsVersionsCall c -> keepsVersions body -> keepsVersions (defer c body).
Proof.
  intros Hc Hb. induction body as [a | msg | R c' k IH]; simpl in *.
  - split; [exact Hc | intros; exact I].
  - split; [exact Hc | intros; exact I].
  - destruct Hb as [Hc' Hk]. split; [exact Hc' |]. intros r. apply IH, Hk.
Qed.

Lemma keepsVersions_withLock {A : Type} (m : Mutex) (key : string) (body : Prog A) :
  keepsVersions body -> keepsVersions (withLock m key body).
Proof.
  intros Hb. unfold withLock. simpl. split; [exact I |].
  intros _. apply keepsVersions_defer; [exact I | exact Hb].
Qed.

Lemma versions_setDocs_other (typ : IndexType) (m : gmap string Doc) (st : Store) :
  typ <> VersionType -> versions (setDocs typ m st) = versions st.
Proof. destruct typ; [reflexivity | congruence | reflexivity]. Qed.

Lemma esIndex_keeps (st : Store) (typ : IndexType) (opCreate : bool) (id : string)
    (body : Article) (k : string) (v : Doc) :
  (typ = VersionType -> opCreate = true) ->
  versions st !! k = Some v ->
  versions (snd (esIndex st typ opCreate id body)) !! k = Some v.
Proof.
  intros Hc Hk. unfold esIndex.
  destruct (String.eqb id "").
  - destruct (docs _ typ !! autoId (autoSeq st)) eqn:Hfree; cbn [snd]; [exact Hk |].
    destruct typ; cbn [setDocs versions docs] in *; try exact Hk.
    rewrite lookup_insert_ne; [exact Hk | congruence].
  - destruct (docs st typ !! id) eqn:Hfree.
    + destruct opCreate; cbn [snd]; [exact Hk |].
      destruct typ; cbn [setDocs versions]; try exact Hk.
      discriminate (Hc eq_refl).
    + cbn [snd]. destruct typ; cbn [setDocs versions docs] in *; try exact Hk.
      rewrite lookup_insert_ne; [exact Hk | congruence].
Qed.

Lemma esDo_keeps {R : Type} (c : Call R) (st : Store) (k : string) (v : Doc) :
  keepsVersionsCall c ->
  versions st !! k = Some v ->
  versions (snd (esDo R c st)) !! k = Some v.
Proof.
  intros Hc Hk. destruct c as [typ id inc | typ oc id body | typ id scr ps dn
                               | typ id doc up | typ id | m key | m key];
    cbn [esDo snd]; try exact Hk.
  - apply esIndex_keeps; [| exact Hk]. intros ->. exact Hc.
  - destruct typ; [| contradiction |]; unfold esUpdateScript;
      destruct (String.eqb id ""); cbn [snd]; try exact Hk;
      cbn [docs]; match goal with |- context [?m !! id] => destruct (m !! id) end;
      cbn [snd]; try exact Hk;
      destruct (scr ps _) as [[|] d']; cbn [snd setDocs versions]; exact Hk.
  - destruct typ; [| contradiction |]; unfold esUpdateDoc;
      destruct (String.eqb id ""); cbn [snd]; try exact Hk;
      cbn [docs]; match goal with |- context [?m !! id] => destruct (m !! id) end;
      try destruct up; try case_bool_decide; cbn [snd setDocs versions]; exact Hk.
  - destruct typ; [| contradiction |]; unfold esDelete;
      destruct (String.eqb id ""); cbn [snd]; try exact Hk;
      cbn [docs]; match goal with |- context [?m !! id] => destruct (m !! id) end;
      cbn [snd setDocs versions]; exact Hk.
Qed.

Lemma run_keeps {A : Type} (p : Prog A) (k : string) (v : Doc) :
  keepsVersions p ->
  forall st, versions st !! k = Some v -> versions (final (run p st)) !! k = Some v.
Proof.
  induction p as [a | msg | R c kont IH]; intros Hp st Hk; [exact Hk | exact Hk |].
  destruct Hp as [Hc Hkont]. unfold run. cbn [exec final logStep].
  apply IH; [apply Hkont | apply esDo_keeps; assumption].
Qed.

Ltac keeps_step :=
  first
    [ exact I
    | reflexivity
    | apply keepsVersions_withLock
    | apply keepsVersions_bind
    | match goal with
      | |- keepsVersions (match ?x with _ => _ end) => destruct x
      | |- keepsVersions (deref ?x) => destruct x
      | |- keepsVersions (mbind _ _) => unfold mbind, Prog_bind
      | |- keepsVersions (let '(_, _) := ?x in _) => destruct x
      | |- _ /\ _ => split
      | |- forall _, _ => intro
      end
    | progress cbn [keepsVersions keepsVersionsCall call deref mret Prog_ret] ].

Ltac keeps :=
  unfold mbind, Prog_bind; repeat keeps_step.

Lemma getArticle_keeps (app : AppRuntime) (typ : IndexType) (id : string)
    (source : list string) :
  keepsVersions (getArticle app typ id source).
Proof. unfold getArticle. keeps. Qed.

Lemma handlers_keep_versions (app : AppRuntime) (r : Request)
    (h : AppRuntime -> Request -> Prog HttpResponseData) :
  In h handlers -> keepsVersions (h app r).
Proof.
  unfold handlers. simpl.
  intros [<- | [<- | [<- | [<- | [<- | [<- | [<- | []]]]]]]].
  - unfold createArticle. keeps.
  - unfold editArticle, getFullArticle.
    repeat first [ match goal with
                   | |- keepsVersions (getArticle _ _ _ _) => apply getArticle_keeps
                   end
                 | keeps_step ].
  - unfold saveArticle. keeps.
  - unfold submitArticle. keeps.
  - unfold discardArticle. keeps.
  - unfold publishArticle, getFullArticle.
    repeat first [ match goal with
                   | |- keepsVersions (getArticle _ _ _ _) => apply getArticle_keeps
                   end
                 | keeps_step ].
  - unfold unpublishArticle. keeps.
Qed.

(** X20.  Version rows are immutable: whatever the request and the store,
    none of the seven handlers changes or removes a version that is in the
    store; a run only ever adds versions. *)
Theorem versions_are_kept (app : AppRuntime) (r : Request) (st : Store)
    (h : AppRuntime -> Request -> Prog HttpResponseData) (id : string) (v : Doc) :
  In h handlers ->
  versions st !! id = Some v ->
  versions (final (run (h app r) st)) !! id = Some v.
Proof.
  intros Hh Hv. apply run_keeps; [apply handlers_keep_versions, Hh | exact Hv].
Qed.

Lemma versions_are_kept_witness :
  versions (final (run (submitArticle exApp exSubmitCollide) hist3)) !! exFirstId
  = versions hist3 !! exFirstId.
Proof.
  etransitivity.
  - apply (versions_are_kept exApp exSubmitCollide hist3 submitArticle exFirstId
             (default emptyDoc (versions hist3 !! exFirstId)));
      [simpl; tauto | vm_compute; reflexivity].
  - vm_compute; reflexivity.
Defined.

Lemma noLocks_bind {A B : Type} (m : Prog A) (f : A -> Prog B) :
  noLocks m -> (forall a, noLocks (f a)) -> noLocks (bind m f).
Proof.
  intros Hm Hf. induction m as [a | msg | R c k IH]; simpl in *; [apply Hf | exact I |].
  destruct Hm as [Hc Hk]. split; [exact Hc |]. intros r. apply IH, Hk.
Qed.

Lemma wellLocked_noLockCall {A R : Type} (held : option (Mutex * string)) (c : Call R)
    (k : R -> Prog A) :
  noLockCall c -> (forall r, wellLocked held (k r)) -> wellLocked held (Do c k).
Proof.
  intros Hc Hk. destruct c; simpl in *; solve [exact Hk | contradiction].
Qed.

Lemma wellLocked_bind {A B : Type} (m : Prog A) (f : A -> Prog B) :
  noLocks m -> (forall a, wellLocked None (f a)) -> wellLocked None (bind m f).
Proof.
  intros Hm Hf. induction m as [a | msg | R c k IH]; [apply Hf | reflexivity |].
  destruct Hm as [Hc Hk]. cbn [bind].
  apply wellLocked_noLockCall; [exact Hc |]. intros r. apply IH, Hk.
Qed.

Lemma wellLocked_defer {A : Type} (m : Mutex) (key : string) (body : Prog A) :
  noLocks body -> wellLocked (Some (m, key)) (defer (Unlock m key) body).
Proof.
  intros Hb. induction body as [a | msg | R c k IH]; cbn [defer].
  - simpl. split; [reflexivity | intros; reflexivity].
  - simpl. split; [reflexivity | intros; reflexivity].
  - destruct Hb as [Hc Hk]. apply wellLocked_noLockCall; [exact Hc |].
    intros r. apply IH, Hk.
Qed.

Lemma wellLocked_withLock {A : Type} (m : Mutex) (key : string) (body : Prog A) :
  noLocks body -> wellLocked None (withLock m key body).
Proof.
  intros Hb. unfold withLock. simpl. split; [reflexivity |].
  intros _. now apply wellLocked_defer.
Qed.

Lemma sameMutex_refl (m : Mutex) : sameMutex m m = true.
Proof. destruct m; reflexivity. Qed.

(** The discipline of a program shows in the log of each of its runs,
    whatever answers the calls. *)
Lemma exec_wellLocked {S A : Type} (h : forall R, Call R -> S -> R * S) (p : Prog A) :
  forall held s,
    wellLocked held p -> lockAfter held (steps (exec h p s)) = Some None.
Proof.
  induction p as [a | msg | R c k IH]; intros held s Hp.
  - simpl in *. now subst.
  - simpl in *. now subst.
  - cbn [exec steps logStep]. revert k IH Hp.
    destruct c as [typ id inc | typ oc id body | typ id scr ps dn
                   | typ id doc up | typ id | m key | m key];
      intros k IH Hp; cbn [stepOf lockAfter]; simpl in Hp.
    1-5: apply IH, Hp.
    + destruct Hp as [-> Hk]. apply IH, Hk.
    + destruct Hp as [-> Hk]. rewrite sameMutex_refl, String.eqb_refl. apply IH, Hk.
Qed.

Ltac nolocks_step :=
  first
    [ exact I
    | apply noLocks_bind
    | match goal with
      | |- noLocks (match ?x with _ => _ end) => destruct x
      | |- noLocks (deref ?x) => destruct x
      | |- noLocks (mbind _ _) => unfold mbind, Prog_bind
      | |- _ /\ _ => split
      | |- forall _, _ => intro
      end
    | progress cbn [noLocks noLockCall call deref mret Prog_ret] ].

Lemma getArticle_noLocks (app : AppRuntime) (typ : IndexType) (id : string)
    (source : list string) :
  noLocks (getArticle app typ id source).
Proof. unfold getArticle. repeat nolocks_step. Qed.

Ltac locks_step :=
  first
    [ reflexivity
    | match goal with
      | |- noLocks (getArticle _ _ _ _) => apply getArticle_noLocks
      | |- wellLocked None (withLock _ _ _) => apply wellLocked_withLock
      | |- wellLocked None (mbind _ _) => unfold mbind, Prog_bind
      | |- wellLocked None (bind _ _) => apply wellLocked_bind
      | |- wellLocked None (match ?x with _ => _ end) => destruct x
      | |- wellLocked None (deref ?x) => destruct x
      | |- wellLocked None (Do (IndexDo _ _ _ _) _) =>
          apply wellLocked_noLockCall; [exact I |]
      end
    | nolocks_step
    | progress cbn [wellLocked call deref mret Prog_ret] ].

Lemma handlers_well_locked (app : AppRuntime) (r : Request)
    (h : AppRuntime -> Request -> Prog HttpResponseData) :
  In h handlers -> wellLocked None (h app r).
Proof.
  unfold handlers. simpl.
  intros [<- | [<- | [<- | [<- | [<- | [<- | [<- | []]]]]]]].
  - unfold createArticle. repeat locks_step.
  - unfold editArticle, getFullArticle. repeat locks_step.
  - unfold saveArticle. repeat locks_step.
  - unfold submitArticle. repeat locks_step.
  - unfold discardArticle. repeat locks_step.
  - unfold publishArticle, getFullArticle. repeat locks_step.
  - unfold unpublishArticle. repeat locks_step.
Qed.

(** X21.  Every lock is given back: in the log of any run of any of the
    seven handlers, whatever the store answers and also when the handler
    panics, a lock is only taken when none is held, every lock taken is
    released (the same mutex, the same key), and none is held at the
    end. *)
Theorem locks_are_released {S : Type} (hd : forall R, Call R -> S -> R * S) (s : S)
    (app : AppRuntime) (r : Request)
    (h : AppRuntime -> Request -> Prog HttpResponseData) :
  In h handlers ->
  lockAfter None (steps (exec hd (h app r) s)) = Some None.
Proof.
  intros Hh. apply exec_wellLocked, handlers_well_locked, Hh.
Qed.

Lemma locks_are_released_witness :
  outcome (runAmong raceSchedule (editArticle exApp exEditCarol) hist3)
  = Panicked "invalid memory address or nil pointer dereference" /\
  lockAfter None (steps (runAmong raceSchedule (editArticle exApp exEditCarol) hist3))
  = Some None.
Proof.
  split; [vm_compute; reflexivity |].
  apply (locks_are_released esDoAmong (hist3, raceSchedule) exApp exEditCarol editArticle).
  simpl. tauto.
Defined.

End Invariants.

(** ** The audit decorator *)

Section Audit.

Lemma exec_bind_ret {S A B : Type} (hd : forall R, Call R -> S -> R * S) (p : Prog A)
    (f : A -> B) :
  forall s,
    exec hd (bind p (fun a => Ret (f a))) s
    = MkRan
        match outcome (exec hd p s) with
        | Returned a => Returned (f a)
        | Panicked msg => Panicked msg
        end
        (final (exec hd p s)) (steps (exec hd p s)).
Proof.
  induction p as [a | msg | R c k IH]; intros s; [reflexivity | reflexivity |].
  cbn [bind exec]. rewrite IH. reflexivity.
Qed.

(** The decorator changes nothing of what the handler does: with any
    store, the calls, the final state and a panic are those of the handler,
    and the response is the handler's, with the audit record beside it. *)
Lemma audit_keeps_handler {S : Type} (hd : forall R, Call R -> S -> R * S) (s : S)
    (action : string) (h : AppRuntime -> Request -> Prog HttpResponseData)
    (app : AppRuntime) (r : Request) :
  steps (exec hd (addAuditLogFields action h app r) s) = steps (exec hd (h app r) s) /\
  final (exec hd (addAuditLogFields action h app r) s) = final (exec hd (h app r) s) /\
  outcome (exec hd (addAuditLogFields action h app r) s)
  = match outcome (exec hd (h app r) s) with
    | Returned d => Returned (d, auditLog action r d)
    | Panicked msg => Panicked msg
    end.
Proof.
  unfold addAuditLogFields, mbind, Prog_bind, mret, Prog_ret.
  rewrite (exec_bind_ret hd (h app r) (fun d => (d, auditLog action r d))).
  repeat split.
Qed.

Lemma auditLog_parsed (action : string) (r : Request) (d : HttpResponseData)
    (guid : string) (ver : Z) :
  CtxKeyId r <> "" ->
  parseArticleId (CtxKeyId r) = (guid, ver, None) ->
  auditLog action r d
  = MkAuditLog
      (if ver >? 0 then
         <["article_version" := LogInt ver]>
           (<["article_guid" := LogString guid]> (baseFields action (Username r)))
       else <["article_guid" := LogString guid]> (baseFields action (Username r)))
      None.
Proof.
  intros Hid Hparse. unfold auditLog. cbv zeta.
  rewrite (eqb_nonempty _ Hid). cbv iota. rewrite (eqb_nonempty _ Hid).
  cbn [negb]. cbv iota. rewrite Hparse.
  destruct (ver >? 0); reflexivity.
Qed.

(** X23.  For a request on a version id, built as submit builds it from a
    non-empty guid and a positive version, the audit record has the five
    fields audit, action, user, article_guid = the guid and
    article_version = the version, and no error is logged. *)
Theorem audit_of_version_id (action : string) (r : Request) (d : HttpResponseData)
    (g : string) (v : Z) :
  g <> "" -> 0 < v <= maxInt64 ->
  CtxKeyId r = versionId g v ->
  auditLog action r d
  = MkAuditLog
      (<["article_version" := LogInt v]>
         (<["article_guid" := LogString g]> (baseFields action (Username r))))
      None.
Proof.
  intros Hg Hv Hid.
  assert (Hno : hasByte ":" (FormatInt v) = false).
  { apply allDigits_no_colon. unfold FormatInt.
    destruct (Z.ltb_spec v 0); [lia |].
    apply formatDigits_allDigits; [lia | reflexivity]. }
  assert (Hparse : parseArticleId (CtxKeyId r) = (g, v, None)).
  { rewrite Hid. unfold versionId.
    rewrite (parseArticleId_at_last g (FormatInt v) Hg Hno).
    now rewrite ParseInt_FormatInt. }
  rewrite (auditLog_parsed action r d g v); [| | exact Hparse].
  - destruct (Z.gtb_spec v 0); [reflexivity | lia].
  - rewrite Hid. apply String.eqb_neq, versionId_nonempty.
Qed.

Lemma audit_of_version_id_witness :
  auditLog "publish" exPublishFirst (CreateRespData StatusOK ContentTypeValueText (TextBody ""))
  = MkAuditLog
      (<["article_version" := LogInt ts1]>
         (<["article_guid" := LogString "auto-0"]> (baseFields "publish" "bob")))
      None.
Proof.
  apply (audit_of_version_id "publish" exPublishFirst _ "auto-0" ts1);
    [discriminate | unfold ts1, maxInt64; lia | reflexivity].
Defined.

(** X24.  For a request on an id without [':'] (a draft), the audit record
    has article_guid = the id and no article_version, and no error is
    logged. *)
Theorem audit_of_draft_id (action : string) (r : Request) (d : HttpResponseData) :
  CtxKeyId r <> "" ->
  hasByte ":" (CtxKeyId r) = false ->
  auditLog action r d
  = MkAuditLog
      (<["article_guid" := LogString (CtxKeyId r)]> (baseFields action (Username r)))
      None.
Proof.
  intros Hid Hno.
  rewrite (auditLog_parsed action r d (CtxKeyId r) 0 Hid); [reflexivity |].
  unfold parseArticleId, LastIndex. rewrite LastIndex_from_absent by exact Hno.
  reflexivity.
Qed.

Lemma audit_of_draft_id_witness :
  auditLog "discard" exDiscardBob (CreateRespData StatusOK ContentTypeValueText (TextBody ""))
  = MkAuditLog (<["article_guid" := LogString "auto-0"]> (baseFields "discard" "bob")) None.
Proof.
  apply (audit_of_draft_id "discard" exDiscardBob); [discriminate | reflexivity].
Defined.

(** X25.  For a request on an id whose text after the last [':'] is not
    an integer, the audit record has only the fields audit, action and
    user: neither the guid nor the version is recorded, and the id is
    reported to the error log with the parse error. *)
Theorem audit_of_bad_id (action : string) (r : Request) (d : HttpResponseData)
    (g s : string) (n : Z) (err : NumError) :
  g <> "" -> hasByte ":" s = false ->
  CtxKeyId r = (g ++ ":" ++ s)%string ->
  ParseInt s = (n, Some err) ->
  auditLog action r d
  = MkAuditLog (baseFields action (Username r)) (Some (CtxKeyId r, err)).
Proof.
  intros Hg Hs Hid Hparse.
  unfold auditLog. cbv zeta.
  assert (Hne : String.eqb (CtxKeyId r) "" = false).
  { rewrite Hid. destruct g; [congruence | reflexivity]. }
  rewrite Hne. cbv iota. rewrite Hne. cbn [negb]. cbv iota.
  replace (parseArticleId (CtxKeyId r)) with (g, 0, Some err); [reflexivity |].
  rewrite Hid, (parseArticleId_at_last g s Hg Hs), Hparse. reflexivity.
Qed.

Lemma audit_of_bad_id_witness :
  auditLog "edit" (MkRequest "abc:xyz" "bob" (BodyJson emptyDoc) 1) 
    (CreateNotFoundRespData "")
  = MkAuditLog (baseFields "edit" "bob") (Some ("abc:xyz", ErrSyntax)).
Proof.
  apply (audit_of_bad_id "edit" (MkRequest "abc:xyz" "bob" (BodyJson emptyDoc) 1) _
           "abc" "xyz" 0 ErrSyntax); [discriminate | reflexivity | reflexivity | reflexivity].
Defined.

End Audit.

(** ** Create, and the save that follows *)

Section Create.

Lemma autoId_nonempty (n : Z) : autoId n <> "".
Proof. unfold autoId. discriminate. Qed.

Lemma create_run (app : AppRuntime) (r : Request) (st : Store) :
  drafts st !! autoId (autoSeq st) = None ->
  run (createArticle app r) st
  = MkRan
      (Returned
         (setData
            (Some (setLockedBy (Username r)
                     (setCreatedBy (Username r)
                        (setGuid (autoId (autoSeq st))
                           (setId (autoId (autoSeq st))
                              (setFromVersion 0 (setLockedBy (Username r) emptyArticle)))))))
            (CreateRespData StatusOK ContentTypeValueJSON
               (JsonBody
                  (marshal
                     (setLockedBy (Username r)
                        (setCreatedBy (Username r)
                           (setGuid (autoId (autoSeq st))
                              (setId (autoId (autoSeq st))
                                 (setFromVersion 0
                                    (setLockedBy (Username r) emptyArticle)))))))))))
      (MkStore
         (<[autoId (autoSeq st) := marshal (setFromVersion 0 (setLockedBy (Username r) emptyArticle))]>
            (drafts st))
         (versions st) (publishes st) (autoSeq st + 1))
      [SIndex DraftType ""].
Proof.
  intros Hfree. unfold createArticle. cbv zeta. rewrite run_call. cbn [esDo].
  unfold esIndex. cbn [String.eqb docs]. rewrite Hfree. reflexivity.
Qed.

(** X26.  Create stores, under the id that the store chooses, a draft with
    the one key [locked_by] = the user, and answers 200 with that id as id
    and as guid and with the user as [created_by] and [locked_by]; the
    stored draft has no guid, no [created_by] and no content. *)
Theorem create_answer (app : AppRuntime) (r : Request) (st : Store) :
  drafts st !! autoId (autoSeq st) = None ->
  Username r <> "" ->
  (exists resp,
     outcome (run (createArticle app r) st) = Returned resp /\
     Status resp = StatusOK /\
     Body resp
     = JsonBody (MkDoc (Some (autoId (autoSeq st))) (Some (autoId (autoSeq st))) None None
                   None None None None None (Some (Username r)) None None None
                   (Some (Username r)))) /\
  drafts (final (run (createArticle app r) st)) !! autoId (autoSeq st)
  = Some (MkDoc None None None None None None None None None None None None None
            (Some (Username r))) /\
  (forall id, id <> autoId (autoSeq st) ->
     drafts (final (run (createArticle app r) st)) !! id = drafts st !! id).
Proof.
  intros Hfree Hu. rewrite (create_run app r st Hfree).
  cbn [outcome final drafts].
  assert (Hou : omitString (Username r) = Some (Username r))
    by (apply omitString_nonempty, eqb_nonempty, Hu).
  split; [| split].
  - eexists. split; [reflexivity |]. split; [reflexivity |].
    cbn [setData Body CreateRespData]. f_equal.
    unfold marshal. cbn [Id Guid Version Headline Summary Content Tag Note CreatedAt
      CreatedBy RevisedAt RevisedBy FromVersion LockedBy setLockedBy setCreatedBy setGuid
      setId setFromVersion emptyArticle].
    rewrite Hou, (omitString_nonempty _ (eqb_nonempty _ (autoId_nonempty _))).
    reflexivity.
  - rewrite lookup_insert_eq. f_equal.
    unfold marshal. cbn [Id Guid Version Headline Summary Content Tag Note CreatedAt
      CreatedBy RevisedAt RevisedBy FromVersion LockedBy setLockedBy setFromVersion
      emptyArticle].
    rewrite Hou. reflexivity.
  - intros id Hne. now rewrite lookup_insert_ne.
Qed.

Lemma create_answer_witness :
  (exists resp,
     outcome (run (createArticle exApp exCreate) emptyStore) = Returned resp /\
     Status resp = StatusOK /\
     Body resp
     = JsonBody (MkDoc (Some "auto-0") (Some "auto-0") None None None None None None None
                   (Some "alice") None None None (Some "alice"))) /\
  drafts hist1 !! "auto-0"
  = Some (MkDoc None None None None None None None None None None None None None
            (Some "alice")).
Proof.
  destruct (create_answer exApp exCreate emptyStore) as (Hresp & Hrow & _);
    [reflexivity | discriminate |].
  split; [exact Hresp | exact Hrow].
Defined.

Lemma save_run_present (app : AppRuntime) (r : Request) (st : Store) (bytes d : Doc) :
  ReqBodyOf r = BodyJson bytes ->
  CtxKeyId r <> "" ->
  drafts st !! CtxKeyId r = Some d ->
  outcome (run (saveArticle app r) st)
  = Returned
      (if bool_decide (f_locked_by d = Some (Username r)) then
         CreateRespData StatusOK ContentTypeValueText (TextBody "")
       else
         CreateForbiddenRespData "Update article locked by another user is not allowed!").
Proof.
  intros Hbody Hid Hd. rewrite (run_save_json app r st bytes Hbody), run_call.
  cbn [esDo]. unfold esUpdateScript. rewrite (eqb_nonempty _ Hid). cbn [docs].
  rewrite Hd. unfold ESScriptSaveArticle.
  cbn [saveParams p_checkuser p_username andb].
  destruct (bool_decide (f_locked_by d = Some (Username r))); reflexivity.
Qed.

(** X27.  After a create by a user, a save on the new id is answered 200
    when it comes from that user and Forbidden (403) when it comes from
    anyone else. *)
Theorem create_then_save (app : AppRuntime) (r rs : Request) (st : Store) (bytes : Doc) :
  drafts st !! autoId (autoSeq st) = None ->
  Username r <> "" ->
  CtxKeyId rs = autoId (autoSeq st) ->
  ReqBodyOf rs = BodyJson bytes ->
  outcome (run (saveArticle app rs) (final (run (createArticle app r) st)))
  = Returned
      (if bool_decide (Username rs = Username r) then
         CreateRespData StatusOK ContentTypeValueText (TextBody "")
       else
         CreateForbiddenRespData "Update article locked by another user is not allowed!").
Proof.
  intros Hfree Hu Hid Hbody.
  rewrite (create_run app r st Hfree). cbn [final].
  rewrite (save_run_present app rs _ bytes
             (marshal (setFromVersion 0 (setLockedBy (Username r) emptyArticle))) Hbody).
  - unfold marshal. cbn [f_locked_by LockedBy setFromVersion setLockedBy emptyArticle].
    rewrite (omitString_nonempty _ (eqb_nonempty _ Hu)).
    destruct (decide (Username rs = Username r)) as [E | E].
    + rewrite !bool_decide_eq_true_2; congruence.
    + rewrite !bool_decide_eq_false_2; congruence.
  - rewrite Hid. apply autoId_nonempty.
  - rewrite Hid. cbn [drafts]. apply lookup_insert_eq.
Qed.

Lemma create_then_save_witness :
  outcome (run (saveArticle exApp (MkRequest "auto-0" "alice" (BodyJson exBodyNew) 5)) hist1)
  = Returned (CreateRespData StatusOK ContentTypeValueText (TextBody "")) /\
  outcome (run (saveArticle exApp (MkRequest "auto-0" "bob" (BodyJson exBodyNew) 5)) hist1)
  = Returned (CreateForbiddenRespData
                "Update article locked by another user is not allowed!").
Proof.
  split.
  - apply (create_then_save exApp exCreate
             (MkRequest "auto-0" "alice" (BodyJson exBodyNew) 5) emptyStore exBodyNew);
      [reflexivity | discriminate | reflexivity | reflexivity].
  - apply (create_then_save exApp exCreate
             (MkRequest "auto-0" "bob" (BodyJson exBodyNew) 5) emptyStore exBodyNew);
      [reflexivity | discriminate | reflexivity | reflexivity].
Defined.

End Create.

(** ** More on the id codec *)

Section CodecMore.

Lemma isPrefix_substring (s : string) :
  forall n, isPrefix (String.substring 0 n s) s = true.
Proof.
  induction s as [| a s' IH]; intros [| n]; simpl; try reflexivity.
  rewrite Ascii.eqb_refl. apply IH.
Qed.

Lemma isPrefix_refl (s : string) : isPrefix s s = true.
Proof. induction s as [| a s' IH]; simpl; [reflexivity |]. now rewrite Ascii.eqb_refl. Qed.

(** X28.  Whatever the id, the guid that [parseArticleId] returns is made
    of the first bytes of the id; and when it returns an error the version
    is 0. *)
Theorem parseArticleId_guid_prefix (id : string) :
  isPrefix (fst (fst (parseArticleId id))) id = true /\
  (snd (parseArticleId id) <> None -> snd (fst (parseArticleId id)) = 0).
Proof.
  unfold parseArticleId.
  destruct (LastIndex id ":" <=? 0).
  - split; [apply isPrefix_refl | intros H; reflexivity].
  - destruct (ParseInt _) as [ver [err |]]; cbn [fst snd]; unfold slice.
    + split; [apply isPrefix_substring | reflexivity].
    + split; [apply isPrefix_substring | congruence].
Qed.

Lemma parseArticleId_guid_prefix_witness :
  isPrefix (fst (fst (parseArticleId "a:b:xyz"))) "a:b:xyz" = true /\
  snd (fst (parseArticleId "a:b:xyz")) = 0.
Proof.
  destruct (parseArticleId_guid_prefix "a:b:xyz") as [Hp Hv].
  split; [exact Hp | apply Hv; vm_compute; discriminate].
Defined.

End CodecMore.
